(** * Learning-management backend: authorization pipeline and course workflow

    A shallow embedding of [src/middlewares/auth.middleware.js] and of the
    course controller, with the properties of the specification stated
    and proved over it.

    Handlers are [async] functions over a mutable request and a handful
    of external collaborators (token library, datastore, asset host,
    staging directory).  They are embedded in a state-and-exception
    monad: the state is what the handler can mutate, an exception is a
    rejected promise, and the value is what the handler signalled to the
    framework ([next(...)] or a JSON response). *)

From stdpp Require Import gmap strings list sets pretty.
From Stdlib Require Import ZArith.

Local Open Scope Z_scope.
Local Open Scope string_scope.
Local Open Scope list_scope.

(** ** JavaScript values *)

#[local] Set Warnings "-register-all,-clear-no-such-hyp".

Inductive JsValue : Type :=
| JUndefined
| JNull
| JBool (b : bool)
| JNum (n : Z)
| JStr (s : string)
| JObj (props : gmap string JsValue).

(** [!!v]: the falsy values are [undefined], [null], [false], [0] and the
    empty string; every object is truthy. *)
Definition truthy (v : JsValue) : bool :=
  match v with
  | JUndefined | JNull => false
  | JBool b => b
  | JNum n => negb (Z.eqb n 0)
  | JStr s => negb (String.eqb s "")
  | JObj _ => true
  end.

(** [v === "lit"] against a string literal. *)
Definition strict_eq_str (v : JsValue) (lit : string) : bool :=
  match v with
  | JStr s => String.eqb s lit
  | _ => false
  end.

(** [roles.includes(v)] for a rest-parameter array of role names. *)
Definition includes (roles : list string) (v : JsValue) : bool :=
  existsb (strict_eq_str v) roles.

(** [v === undefined || v === null] *)
Definition nullish (v : JsValue) : bool :=
  match v with
  | JUndefined | JNull => true
  | _ => false
  end.

(** The value of [v.k] where reading it does not throw. *)
Definition prop (v : JsValue) (k : string) : JsValue :=
  match v with
  | JObj props => default JUndefined (props !! k)
  | _ => JUndefined
  end.

(** A cookie or query parameter: a string when present. *)
Definition of_param (o : option string) : JsValue :=
  match o with
  | Some s => JStr s
  | None => JUndefined
  end.

(** ** Errors *)

(** [new ApiError(message, statusCode)]. *)
Record ApiError : Type := mkApiError {
  message : string;
  statusCode : Z
}.

(** What a handler can throw (the rejection of its promise): a
    [TypeError] from reading a property of [undefined] or [null], or the
    error object of an external library, carried with its library of
    origin and its [JSON.stringify] rendering.  Neither is an
    [ApiError]: neither has a [statusCode]. *)
Inductive Exn : Type :=
| TypeError (reading : string)
| LibError (origin : string) (json : string).

(** ** The handler monad *)

Inductive Completion (A : Type) : Type :=
| Normal (a : A)
| Throw (e : Exn).
Arguments Normal {A} a.
Arguments Throw {A} e.

Definition M (S A : Type) : Type := S → Completion A * S.

Definition ret {S A} (a : A) : M S A := λ s, (Normal a, s).

Definition bind {S A B} (m : M S A) (k : A → M S B) : M S B :=
  λ s, match m s with
       | (Normal a, s') => k a s'
       | (Throw e, s') => (Throw e, s')
       end.

Definition throw {S A} (e : Exn) : M S A := λ s, (Throw e, s).

Definition get_state {S} : M S S := λ s, (Normal s, s).

Definition modify {S} (f : S → S) : M S unit := λ s, (Normal tt, f s).

(** [try { m } catch (error) { h error }] *)
Definition try_catch {S A} (m : M S A) (h : Exn → M S A) : M S A :=
  λ s, match m s with
       | (Normal a, s') => (Normal a, s')
       | (Throw e, s') => h e s'
       end.

(** [for (const x of xs) { await f x }] *)
Fixpoint for_of {S A} (xs : list A) (f : A → M S unit) : M S unit :=
  match xs with
  | [] => ret tt
  | x :: xs' => bind (f x) (λ _, for_of xs' f)
  end.

Notation "'do' x <- m ; k" := (bind m (λ x, k))
  (at level 10, x name, m at level 100, k at level 200).
Notation "'do_' m ; k" := (bind m (λ _, k))
  (at level 10, m at level 100, k at level 200).

(** What a handler signals to the framework: [next()], [next(err)], or a
    response of its own. *)
Inductive Signal (R : Type) : Type :=
| Next (err : option ApiError)
| Respond (status : Z) (response : R).
Arguments Next {R} err.
Arguments Respond {R} status response.

(** ** Token verifier and access guard: [auth.middleware.js] *)

Module Auth.

(** The request as the middlewares use it: [req.cookies] and [req.user]. *)
Record Request : Type := mkRequest {
  cookies : gmap string string;
  user : JsValue
}.

(** The middleware state: the request, and the names of the properties
    of the claim read so far, oldest first. *)
Record State : Type := mkState {
  req : Request;
  reads : list string
}.

(** [jwt.verify(token, secret)] either throws or returns the payload. *)
Inductive Verified : Type :=
| VerifyThrows (name msg : string)
| VerifyReturns (decoded : JsValue).

Record Env : Type := mkEnv {
  JWT_SECRET : option string;
  jwt_verify : string → option string → Verified
}.

Definition verify (env : Env) (token : string) : M State JsValue :=
  match jwt_verify env token (JWT_SECRET env) with
  | VerifyThrows name msg => throw (LibError "jsonwebtoken" (name +:+ ": " +:+ msg))
  | VerifyReturns decoded => ret decoded
  end.

(** [req.user] *)
Definition req_user : M State JsValue :=
  do s <- get_state; ret (user (req s)).

(** [req.user = v] *)
Definition set_req_user (v : JsValue) : M State unit :=
  modify (λ s, mkState (mkRequest (cookies (req s)) v) (reads s)).

(** [v.k]: a [TypeError] on [undefined] and [null]; the own property of
    an object, [undefined] when it has none; [undefined] on the other
    primitives (none of the names read here is a prototype property). *)
Definition get_prop (v : JsValue) (k : string) : M State JsValue :=
  match v with
  | JUndefined | JNull => throw (TypeError k)
  | JObj props =>
      do_ modify (λ s, mkState (req s) (reads s ++ [k]));
      ret (default JUndefined (props !! k))
  | _ =>
      do_ modify (λ s, mkState (req s) (reads s ++ [k]));
      ret JUndefined
  end.

Definition isLoggedIn (env : Env) : M State (Signal unit) :=
  do s <- get_state;
  let token := cookies (req s) !! "token" in
  if negb (truthy (of_param token)) then
    ret (Next (Some (mkApiError "Unauthorized, please login to continue" 401)))
  else
    do decoded <- verify env (default "" token);
    if negb (truthy decoded) then
      ret (Next (Some (mkApiError "Unauthorized, please login to continue" 401)))
    else
      do_ set_req_user decoded;
      ret (Next None).

Definition authorizeRoles (roles : list string) : M State (Signal unit) :=
  do u <- req_user;
  do role <- get_prop u "role";
  if negb (includes roles role) then
    ret (Next (Some (mkApiError "You do not have permission to view this route" 403)))
  else
    ret (Next None).

(** [a && b] evaluates [b] only when [a] is true. *)
Definition and_then {S} (a : M S bool) (b : M S bool) : M S bool :=
  do x <- a; if x then b else ret false.

Definition authorizeSubscribers : M State (Signal unit) :=
  do deny <-
    and_then
      (do u <- req_user;
       do role <- get_prop u "role";
       ret (negb (strict_eq_str role "ADMIN")))
      (do u <- req_user;
       do sub <- get_prop u "subscription";
       do status <- get_prop sub "status";
       ret (negb (strict_eq_str status "active")));
  if deny then
    ret (Next (Some (mkApiError "Please subscribe to access this route." 403)))
  else
    ret (Next None).

End Auth.

(** ** Course mutation workflow: the course controller *)

Module Courses.

(** An asset reference [{ public_id, secure_url }]; a field is [None]
    when the object does not have it. *)
Record Asset : Type := mkAsset {
  public_id : option string;
  secure_url : option string
}.

Definition no_asset : Asset := mkAsset None None.

(** An element of [course.lectures]: [{ _id, title, description, lecture }]. *)
Record Lecture : Type := mkLecture {
  lecture_id : string;
  lecture_title : JsValue;
  lecture_description : JsValue;
  lecture : Asset
}.

(** A Course document without its [_id], which is the key it is stored
    under. *)
Record Course : Type := mkCourse {
  title : JsValue;
  description : JsValue;
  category : JsValue;
  createdBy : JsValue;
  thumbnail : Asset;
  lectures : list Lecture;
  numberOfLectures : Z
}.

(** [req.body], read through the paths of the Course schema: the four
    text fields are [undefined] when the body lacks them, the other
    paths are [None] when it lacks them. *)
Record Body : Type := mkBody {
  body_title : JsValue;
  body_description : JsValue;
  body_category : JsValue;
  body_createdBy : JsValue;
  body_thumbnail : option Asset;
  body_lectures : option (list Lecture);
  body_numberOfLectures : option Z
}.

(** [req.file], as the upload middleware leaves it. *)
Record File : Type := mkFile {
  path : string;
  filename : string
}.

Record Request : Type := mkRequest {
  body : Body;
  params : gmap string string;
  query : gmap string string;
  file : option File
}.

(** Options of [cloudinary.v2.uploader.upload]. *)
Record UploadOptions : Type := mkUploadOptions {
  folder : string;
  chunk_size : option Z;
  resource_type : option string
}.

(** A call received by the remote asset host. *)
Inductive CloudCall : Type :=
| Upload (file_path : string) (options : UploadOptions)
| Destroy (id : option string) (resource : string).

(** Everything a controller can change: the Course collection keyed by
    [_id], the names of the files in the staging directory [uploads/], and
    the calls made to the asset host, oldest first. *)
Record World : Type := mkWorld {
  db : gmap string Course;
  uploads : gset string;
  cloud : list CloudCall
}.

Inductive Uploaded : Type :=
| UploadThrows (json : string)
| UploadReturns (result : option Asset).

(** The behaviour of the external collaborators that the controller
    cannot see: which documents the Course schema accepts, and whether a
    call to the asset host succeeds. *)
Record Env : Type := mkEnv {
  schema_accepts : Course → bool;
  update_accepts : Body → bool;
  upload_outcome : string → UploadOptions → Uploaded;
  destroy_outcome : option string → string → option string
}.

Definition set_db (f : gmap string Course → gmap string Course) : M World unit :=
  modify (λ w, mkWorld (f (db w)) (uploads w) (cloud w)).

Definition set_uploads (f : gset string → gset string) : M World unit :=
  modify (λ w, mkWorld (db w) (f (uploads w)) (cloud w)).

Definition log_call (c : CloudCall) : M World unit :=
  modify (λ w, mkWorld (db w) (uploads w) (cloud w ++ [c])).

Definition ValidationError : Exn := LibError "mongoose" "ValidationError".

(** Modelled from the spec: the Course model ([models/course.model.js])
    is not among the sources.  Identifiers are assigned at creation and
    unique: a new one is a non-empty string that none of the identifiers
    in use equals. *)
Definition new_ObjectId (used : gset string) : string :=
  fresh ({[ "" ]} ∪ used).

(** Modelled from the spec: the Course model is not among the sources.
    A new Course has the four fields it was created with, an empty
    thumbnail reference, an empty lecture list and a lecture count of
    zero. *)
Definition draft (t d c cb : JsValue) : Course :=
  mkCourse t d c cb no_asset [] 0.

(** Modelled from the spec: the Course model is not among the sources.
    The datastore offers create, find-by-id, update-with-merge and save
    over the collection; create, update and save reject what the schema
    does not accept, and a lookup that resolves to no document returns
    [null].  A document in the hands of a controller is the pair of its
    [_id] and its fields. *)
Definition Course_create (env : Env) (t d c cb : JsValue)
  : M World (option (string * Course)) :=
  do w <- get_state;
  let id := new_ObjectId (dom (db w)) in
  let doc := draft t d c cb in
  if schema_accepts env doc then
    do_ set_db (insert id doc);
    ret (Some (id, doc))
  else throw ValidationError.

Definition Course_findById (id : option string) : M World (option (string * Course)) :=
  do w <- get_state;
  ret (i ← id; doc ← db w !! i; Some (i, doc)).

Definition Course_save (env : Env) (id : string) (doc : Course) : M World unit :=
  if schema_accepts env doc then set_db (insert id doc)
  else throw ValidationError.

(** [{ $set: body }]: every path the body has replaces the document's. *)
Definition set_text (new old : JsValue) : JsValue :=
  match new with
  | JUndefined => old
  | _ => new
  end.

Definition apply_set (b : Body) (doc : Course) : Course :=
  mkCourse
    (set_text (body_title b) (title doc))
    (set_text (body_description b) (description doc))
    (set_text (body_category b) (category doc))
    (set_text (body_createdBy b) (createdBy doc))
    (default (thumbnail doc) (body_thumbnail b))
    (default (lectures doc) (body_lectures b))
    (default (numberOfLectures doc) (body_numberOfLectures b)).

(** Returns the document as it was before the update, or [null]. *)
Definition Course_findByIdAndUpdate (env : Env) (id : option string) (b : Body)
  : M World (option (string * Course)) :=
  if update_accepts env b then
    do found <- Course_findById id;
    match found with
    | Some (i, doc) =>
        do_ set_db (insert i (apply_set b doc));
        ret (Some (i, doc))
    | None => ret None
    end
  else throw ValidationError.

(** [cloudinary.v2.uploader.upload(path, options)] *)
Definition cloudinary_upload (env : Env) (p : string) (o : UploadOptions)
  : M World (option Asset) :=
  do_ log_call (Upload p o);
  match upload_outcome env p o with
  | UploadThrows json => throw (LibError "cloudinary" json)
  | UploadReturns result => ret result
  end.

(** [cloudinary.v2.uploader.destroy(public_id, { resource_type })] *)
Definition cloudinary_destroy (env : Env) (id : option string) (r : string)
  : M World unit :=
  do_ log_call (Destroy id r);
  match destroy_outcome env id r with
  | Some json => throw (LibError "cloudinary" json)
  | None => ret tt
  end.

(** [fs.readdir('uploads/')] *)
Definition fs_readdir : M World (list string) :=
  do w <- get_state; ret (elements (uploads w)).

(** [await fs.unlink(path.join('uploads/', file))] *)
Definition fs_unlink (f : string) : M World unit :=
  do w <- get_state;
  if decide (f ∈ uploads w) then set_uploads (λ u, u ∖ {[f]})
  else throw (LibError "fs" "ENOENT").

(** [fs.rm(`uploads/${filename}`)], not awaited: its failure does not
    reach the handler. *)
Definition fs_rm (f : string) : M World unit :=
  set_uploads (λ u, u ∖ {[f]}).

(** [JSON.stringify(error) || 'File not uploaded, please try again'] *)
Definition upload_error_message (error : Exn) : string :=
  match error with
  | LibError _ json => if String.eqb json "" then "File not uploaded, please try again" else json
  | TypeError _ => "{}"
  end.

(** The [catch] block shared by the two uploading handlers. *)
Definition purge_and_fail {R} (error : Exn) : M World (Signal R) :=
  do files <- fs_readdir;
  do_ for_of files fs_unlink;
  ret (Next (Some (mkApiError (upload_error_message error) 400))).

(** The JSON envelope [{ success, message, ...payload }]. *)
Inductive Payload : Type :=
| NoPayload
| CoursePayload (id : string) (course : Course)
| LecturesPayload (lectures : list Lecture).

Record Response : Type := mkResponse {
  success : bool;
  response_message : string;
  payload : Payload
}.

Definition fail {S} (msg : string) (code : Z) : M S (Signal Response) :=
  ret (Next (Some (mkApiError msg code))).

Definition createCourse (env : Env) (req : Request) : M World (Signal Response) :=
  let t := body_title (body req) in
  let d := body_description (body req) in
  let c := body_category (body req) in
  let cb := body_createdBy (body req) in
  if negb (truthy t) || negb (truthy d) || negb (truthy c) || negb (truthy cb) then
    fail "All fields are required" 400
  else
    do created <- Course_create env t d c cb;
    match created with
    | None => fail "Course could not be created, please try again" 400
    | Some (id, course) =>
        do staged <-
          match file req with
          | Some f =>
              try_catch
                (do result <- cloudinary_upload env (path f) (mkUploadOptions "lms" None None);
                 let course' :=
                   match result with
                   | Some r =>
                       mkCourse (title course) (description course)
                         (category course) (createdBy course)
                         (mkAsset (public_id r) (secure_url r))
                         (lectures course) (numberOfLectures course)
                   | None => course
                   end in
                 do_ fs_rm (filename f);
                 ret (inl course'))
                (λ error, do out <- purge_and_fail error; ret (inr out))
          | None => ret (inl course)
          end;
        match staged with
        | inr out => ret out
        | inl course' =>
            do_ Course_save env id course';
            ret (Respond 201 (mkResponse true "Course created successfully" (CoursePayload id course')))
        end
    end.

(** The lecture list with one more element, which receives an
    identifier no lecture of the list has. *)
Definition push (ls : list Lecture) (t d : JsValue) (data : Asset) : list Lecture :=
  ls ++ [mkLecture (new_ObjectId (list_to_set (lecture_id <$> ls))) t d data].

Definition with_lectures (course : Course) (ls : list Lecture) : Course :=
  mkCourse (title course) (description course) (category course)
    (createdBy course) (thumbnail course) ls (numberOfLectures course).

Definition with_numberOfLectures (course : Course) (n : Z) : Course :=
  mkCourse (title course) (description course) (category course)
    (createdBy course) (thumbnail course) (lectures course) n.

Definition addLectureToCourseById (env : Env) (req : Request) : M World (Signal Response) :=
  let t := body_title (body req) in
  let d := body_description (body req) in
  let id := params req !! "id" in
  let lectureData := no_asset in
  if negb (truthy t) || negb (truthy d) then
    fail "Title and Description are required" 400
  else
    do found <- Course_findById id;
    match found with
    | None => fail "Invalid course id or course not found." 400
    | Some (i, course) =>
        do staged <-
          match file req with
          | Some f =>
              try_catch
                (do result <- cloudinary_upload env (path f)
                                (mkUploadOptions "lms" (Some 50000000) (Some "video"));
                 let lectureData' :=
                   match result with
                   | Some r => mkAsset (public_id r) (secure_url r)
                   | None => lectureData
                   end in
                 do_ fs_rm (filename f);
                 ret (inl lectureData'))
                (λ error, do out <- purge_and_fail error; ret (inr out))
          | None => ret (inl lectureData)
          end;
        match staged with
        | inr out => ret out
        | inl lectureData' =>
            let course1 := with_lectures course (push (lectures course) t d lectureData') in
            let course2 := with_numberOfLectures course1 (Z.of_nat (length (lectures course1))) in
            do_ Course_save env i course2;
            ret (Respond 200 (mkResponse true "Course lecture added successfully" (CoursePayload i course2)))
        end
    end.

(** [ls.findIndex(p)]: the index of the first element satisfying [p],
    [-1] when there is none. *)
Fixpoint findIndex {A} (p : A → bool) (ls : list A) : Z :=
  match ls with
  | [] => -1
  | x :: ls' =>
      if p x then 0
      else let i := findIndex p ls' in if Z.eqb i (-1) then -1 else i + 1
  end.

(** [ls.splice(i, 1)] for an index inside the list. *)
Definition splice1 {A} (i : Z) (ls : list A) : list A :=
  take (Z.to_nat i) ls ++ drop (S (Z.to_nat i)) ls.

(** [(lecture) => lecture._id.toString() === lectureId.toString()] *)
Definition has_id (lectureId : string) (l : Lecture) : bool :=
  String.eqb (lecture_id l) lectureId.

Definition removeLectureFromCourse (env : Env) (req : Request) : M World (Signal Response) :=
  let courseId := query req !! "courseId" in
  let lectureId := query req !! "lectureId" in
  if negb (truthy (of_param courseId)) then
    fail "Course ID is required" 400
  else if negb (truthy (of_param lectureId)) then
    fail "Lecture ID is required" 400
  else
    do found <- Course_findById courseId;
    match found with
    | None => fail "Invalid ID or Course does not exist." 404
    | Some (i, course) =>
        let lectureIndex :=
          findIndex (has_id (default "" lectureId)) (lectures course) in
        if Z.eqb lectureIndex (-1) then
          fail "Lecture does not exist." 404
        else
          match lectures course !! Z.to_nat lectureIndex with
          | None => throw (TypeError "lecture")
          | Some located =>
              do_ cloudinary_destroy env (public_id (lecture located)) "video";
              let course1 := with_lectures course (splice1 lectureIndex (lectures course)) in
              let course2 := with_numberOfLectures course1 (Z.of_nat (length (lectures course1))) in
              do_ Course_save env i course2;
              ret (Respond 200 (mkResponse true "Course lecture removed successfully" NoPayload))
          end
    end.

Definition updateCourseById (env : Env) (req : Request) : M World (Signal Response) :=
  let id := params req !! "id" in
  do found <- Course_findByIdAndUpdate env id (body req);
  match found with
  | None => fail "Invalid course id or course not found." 400
  | Some _ =>
      ret (Respond 200 (mkResponse true "Course updated successfully" NoPayload))
  end.

(** The course after a lecture has been pushed and the count reset. *)
Definition lecture_added (course : Course) (t d : JsValue) (data : Asset) : Course :=
  let course1 := with_lectures course (push (lectures course) t d data) in
  with_numberOfLectures course1 (Z.of_nat (length (lectures course1))).

(** The course after the lecture at index [i] has been spliced out and
    the count reset. *)
Definition lecture_removed (course : Course) (i : Z) : Course :=
  let course1 := with_lectures course (splice1 i (lectures course)) in
  with_numberOfLectures course1 (Z.of_nat (length (lectures course1))).

(** The lecture-count field agrees with the lecture list. *)
Definition count_consistent (course : Course) : Prop :=
  numberOfLectures course = Z.of_nat (length (lectures course)).

(** The asset reference a handler keeps of what an upload returned. *)
Definition asset_of (result : option Asset) : Asset :=
  match result with
  | Some r => mkAsset (public_id r) (secure_url r)
  | None => no_asset
  end.

(** No two lectures of the course share an identifier. *)
Definition unique_lecture_ids (course : Course) : Prop :=
  NoDup (lecture_id <$> lectures course).

Definition getLecturesByCourseId (req : Request) : M World (Signal Response) :=
  let id := params req !! "id" in
  do found <- Course_findById id;
  match found with
  | None => fail "Invalid course id or course not found." 404
  | Some (_, course) =>
      ret (Respond 200 (mkResponse true "Course lectures fetched successfully"
                          (LecturesPayload (lectures course))))
  end.

(** [await course.remove()] *)
Definition Course_remove (id : string) : M World unit :=
  set_db (delete id).

Definition deleteCourseById (req : Request) : M World (Signal Response) :=
  let id := params req !! "id" in
  do found <- Course_findById id;
  match found with
  | None => fail "Course with given id does not exist." 404
  | Some (i, _) =>
      do_ Course_remove i;
      ret (Respond 200 (mkResponse true "Course deleted successfully" NoPayload))
  end.

(** A Course as [select('-lectures')] returns it: every path but
    [lectures]. *)
Record Summary : Type := mkSummary {
  summary_id : string;
  summary_title : JsValue;
  summary_description : JsValue;
  summary_category : JsValue;
  summary_createdBy : JsValue;
  summary_thumbnail : Asset;
  summary_numberOfLectures : Z
}.

Definition without_lectures (doc : string * Course) : Summary :=
  mkSummary doc.1 (title doc.2) (description doc.2) (category doc.2)
    (createdBy doc.2) (thumbnail doc.2) (numberOfLectures doc.2).

(** [await Course.find({}).select('-lectures')] *)
Definition Course_find_all : M World (list Summary) :=
  do w <- get_state; ret (without_lectures <$> map_to_list (db w)).

(** The envelope of [getAllCourses]: [{ success, message, courses }]. *)
Record Listing : Type := mkListing {
  listing_success : bool;
  listing_message : string;
  courses : list Summary
}.

Definition getAllCourses : M World (Signal Listing) :=
  do found <- Course_find_all;
  ret (Respond 200 (mkListing true "All courses" found)).

End Courses.

(** ** Contact form and usage statistics: [miscellaneous.controller.js] *)

Module Misc.

Record Request : Type := mkRequest {
  body : gmap string JsValue
}.

(** A call [sendEmail(to, subject, text)]. *)
Record Email : Type := mkEmail {
  recipient : JsValue;
  subject : string;
  text : string
}.

(** The calls to [sendEmail], oldest first, and the User collection. *)
Record World : Type := mkWorld {
  outbox : list Email;
  users : list JsValue
}.

(** [process.env.CONTACT_US_EMAIL]; whether the mail transport throws
    on a message, with the [message] of the error if it does; and the
    text the engine prints for an integer beyond 2^53 in absolute value
    (the shortest digits that identify the double, in exponent notation
    from 1e21 on). *)
Record Env : Type := mkEnv {
  CONTACT_US_EMAIL : JsValue;
  send_outcome : Email → option string;
  large_number_text : Z → string
}.

(** [Number::toString] of an integer: its decimal digits as long as
    every integer of that size is a double. *)
Definition Number_toString (env : Env) (n : Z) : string :=
  if Z.leb (Z.abs n) (2 ^ 53) then pretty n else large_number_text env n.

(** [`${v}`]: the string a template literal interpolates, [None] when
    the conversion throws its [TypeError].  An object is converted by
    its [toString]: that of [Object.prototype], unless the object has a
    property [toString] of its own; in a parsed body such a property is
    never a function, and the object then has no primitive value. *)
Definition to_string (env : Env) (v : JsValue) : option string :=
  match v with
  | JUndefined => Some "undefined"
  | JNull => Some "null"
  | JBool b => Some (if b then "true" else "false")
  | JNum n => Some (Number_toString env n)
  | JStr s => Some s
  | JObj props =>
      match props !! "toString" with
      | Some _ => None
      | None => Some "[object Object]"
      end
  end.

(** [`${name} - ${email} <br /> ${message}`] *)
Definition textMessage_of (env : Env) (name email message : JsValue) : option string :=
  n ← to_string env name;
  e ← to_string env email;
  m ← to_string env message;
  Some (n +:+ " - " +:+ e +:+ " <br /> " +:+ m).

(** The [message] of the [TypeError] of a failed conversion. *)
Definition not_primitive : string := "Cannot convert object to primitive value".

(** The arguments [new ApiError(...)] is called with: the status code
    is optional. *)
Record ErrorArgs : Type := mkErrorArgs {
  error_message : string;
  error_status : option Z
}.

Inductive Stats : Type :=
| NoStats
| UserCounts (allUsersCount subscribedUsersCount : Z).

Record Response : Type := mkResponse {
  success : bool;
  response_message : string;
  stats : Stats
}.

Inductive Outcome : Type :=
| NextWith (error : ErrorArgs)
| Json (status : Z) (response : Response).

(** [await sendEmail(to, subject, text)].  The mail helper
    ([utils/sendEmail.js]) is not among the sources: it is a call that
    reaches the transport and either returns or throws an error, of which
    the caller keeps the [message]. *)
Definition sendEmail (env : Env) (to : JsValue) (subj txt : string)
  : M World (option string) :=
  do_ modify (λ w, mkWorld (outbox w ++ [mkEmail to subj txt]) (users w));
  ret (send_outcome env (mkEmail to subj txt)).

Definition contactUs (env : Env) (req : Request) : M World Outcome :=
  let name := default JUndefined (body req !! "name") in
  let email := default JUndefined (body req !! "email") in
  let message := default JUndefined (body req !! "message") in
  if negb (truthy name) || negb (truthy email) || negb (truthy message) then
    ret (NextWith (mkErrorArgs "Name, Email, Message are required" None))
  else
    let subject := "Contact Us Form" in
    match textMessage_of env name email message with
    | None => ret (NextWith (mkErrorArgs not_primitive (Some 400)))
    | Some textMessage =>
        do thrown <- sendEmail env (CONTACT_US_EMAIL env) subject textMessage;
        match thrown with
        | Some error_message => ret (NextWith (mkErrorArgs error_message (Some 400)))
        | None =>
            ret (Json 200 (mkResponse true "Your request has been submitted successfully"
                             NoStats))
        end
    end.

(** The filter [{ 'subscription.status': 'active' }] on a User document. *)
Definition subscription_active (u : JsValue) : bool :=
  strict_eq_str (prop (prop u "subscription") "status") "active".

(** [await User.countDocuments(filter)] *)
Definition User_countDocuments (filter : JsValue → bool) : M World Z :=
  do w <- get_state; ret (Z.of_nat (length (List.filter filter (users w)))).

Definition userStats : M World Outcome :=
  do allUsersCount <- User_countDocuments (λ _, true);
  do subscribedUsersCount <- User_countDocuments subscription_active;
  ret (Json 200 (mkResponse true "All registered users count"
                   (UserCounts allUsersCount subscribedUsersCount))).

End Misc.

(** ** The error outcomes of the taxonomy, as the handlers build them *)

Definition Unauthenticated : ApiError :=
  mkApiError "Unauthorized, please login to continue" 401.

Definition ValidationFailed : ApiError :=
  mkApiError "All fields are required" 400.

Definition NotFound_lecture : ApiError :=
  mkApiError "Lecture does not exist." 404.

Definition Forbidden_role : ApiError :=
  mkApiError "You do not have permission to view this route" 403.

Definition Forbidden_subscription : ApiError :=
  mkApiError "Please subscribe to access this route." 403.

(** The state after a guard has read the listed properties. *)
Definition after_reading (s : Auth.State) (names : list string) : Auth.State :=
  Auth.mkState (Auth.req s) (Auth.reads s ++ names).

(** ** Sample requests *)

Module Samples.
Import Auth.

(** A claim [{ role, subscription }]. *)
Definition claim (role : string) (subscription : JsValue) : JsValue :=
  JObj {[ "role" := JStr role; "subscription" := subscription ]}.

Definition subscription (status : string) : JsValue :=
  JObj {[ "status" := JStr status ]}.

(** A token library that accepts the token ["good"] only. *)
Definition jwt : Env :=
  mkEnv (Some "secret")
    (λ token _,
       if String.eqb token "good"
       then VerifyReturns (claim "USER" (subscription "active"))
       else VerifyThrows "JsonWebTokenError" "jwt malformed").

(** A request whose [token] cookie is not a signed token. *)
Definition malformed : State :=
  mkState (mkRequest {[ "token" := "garbage" ]} JUndefined) [].

(** A request past the token verifier, carrying the given claim. *)
Definition verified (c : JsValue) : State :=
  mkState (mkRequest {[ "token" := "good" ]} c) [].

(** A claim [{ role: "USER" }], without a subscription. *)
Definition unsubscribed : JsValue := JObj {[ "role" := JStr "USER" ]}.

(** A request with a good token before the verifier has run. *)
Definition arriving : State :=
  mkState (mkRequest {[ "token" := "good" ]} JUndefined) [].

Definition subscriber : JsValue := claim "USER" (subscription "active").

(** An administrator who never subscribed. *)
Definition administrator : JsValue := claim "ADMIN" JUndefined.

End Samples.

Module CourseSamples.
Import Courses.

(** A schema that accepts every document, an asset host that answers
    every call. *)
Definition cooperative : Env :=
  mkEnv (λ _, true) (λ _, true)
    (λ _ _, UploadReturns (Some (mkAsset (Some "lms/v1") (Some "https://res/lms/v1"))))
    (λ _ _, None).

(** The same, with an asset host that rejects every upload. *)
Definition failing_uploads : Env :=
  mkEnv (λ _, true) (λ _, true) (λ _ _, UploadThrows "{}") (λ _ _, None).

Definition text_body (t d c cb : JsValue) : Body :=
  mkBody t d c cb None None None.

Definition algebra_body : Body :=
  text_body (JStr "Algebra") (JStr "Intro") (JStr "Math") (JStr "u1").

(** No course yet, two files staged. *)
Definition staging : World := mkWorld ∅ {[ "a.png"; "b.png" ]} [].

Definition create_with_file : Request :=
  mkRequest algebra_body ∅ ∅ (Some (mkFile "uploads/a.png" "a.png")).

Definition create_without_title : Request :=
  mkRequest (text_body JUndefined (JStr "Intro") (JStr "Math") (JStr "u1")) ∅ ∅ None.

Definition algebra : Course :=
  draft (JStr "Algebra") (JStr "Intro") (JStr "Math") (JStr "u1").

(** The course "c1" stored without lectures. *)
Definition stored : World := mkWorld {[ "c1" := algebra ]} ∅ [].

(** The course "c1" stored with one lecture, added without a file. *)
Definition taught : Course :=
  mkCourse (JStr "Algebra") (JStr "Intro") (JStr "Math") (JStr "u1") no_asset
    [mkLecture "l1" (JStr "Week 1") (JStr "Sets") no_asset] 1.

Definition teaching : World := mkWorld {[ "c1" := taught ]} ∅ [].

Definition add_lecture : Request :=
  mkRequest (text_body (JStr "Week 1") (JStr "Sets") JUndefined JUndefined)
    {[ "id" := "c1" ]} ∅ None.

Definition remove_lecture (lectureId : string) : Request :=
  mkRequest (text_body JUndefined JUndefined JUndefined JUndefined)
    ∅ {[ "courseId" := "c1"; "lectureId" := lectureId ]} None.

(** An update whose body is [{ numberOfLectures: 7 }]. *)
Definition set_count : Request :=
  mkRequest (mkBody JUndefined JUndefined JUndefined JUndefined None None (Some 7))
    {[ "id" := "c1" ]} ∅ None.

Definition create_without_file : Request :=
  mkRequest algebra_body ∅ ∅ None.

(** An update whose body is [{ title: "Algebra I" }]. *)
Definition set_title : Request :=
  mkRequest (text_body (JStr "Algebra I") JUndefined JUndefined JUndefined)
    {[ "id" := "c1" ]} ∅ None.

(** The course "c1" after [add_lecture], and the response to it. *)
Definition with_week1 : Course :=
  lecture_added algebra (JStr "Week 1") (JStr "Sets") no_asset.

Definition after_add : World := mkWorld {[ "c1" := with_week1 ]} ∅ [].

Definition added : Response :=
  mkResponse true "Course lecture added successfully" (CoursePayload "c1" with_week1).

(** The world after the lecture of [teaching] has been removed. *)
Definition after_remove : World :=
  mkWorld {[ "c1" := lecture_removed taught 0 ]} ∅ [Destroy None "video"].

Definition removed : Response :=
  mkResponse true "Course lecture removed successfully" NoPayload.

Definition updated : Response :=
  mkResponse true "Course updated successfully" NoPayload.

(** A schema whose update validators reject every body. *)
Definition strict : Env :=
  mkEnv (λ _, true) (λ _, false)
    (λ _ _, UploadReturns (Some (mkAsset (Some "lms/v1") (Some "https://res/lms/v1"))))
    (λ _ _, None).

Definition returned : Asset := mkAsset (Some "lms/v1") (Some "https://res/lms/v1").

(** The course "c1" stored with one lecture, two files staged. *)
Definition staged_teaching : World :=
  mkWorld {[ "c1" := taught ]} {[ "a.png"; "b.png" ]} [].

Definition add_with_file : Request :=
  mkRequest (text_body (JStr "Week 2") (JStr "Maps") JUndefined JUndefined)
    {[ "id" := "c1" ]} ∅ (Some (mkFile "uploads/b.png" "b.png")).

(** A request that names the course "c1" in its path and nothing else. *)
Definition by_id : Request :=
  mkRequest (text_body JUndefined JUndefined JUndefined JUndefined)
    {[ "id" := "c1" ]} ∅ None.

(** A remove-lecture request without [lectureId]. *)
Definition remove_without_lecture : Request :=
  mkRequest (text_body JUndefined JUndefined JUndefined JUndefined)
    ∅ {[ "courseId" := "c1" ]} None.

Definition retitled : World :=
  mkWorld {[ "c1" := apply_set (body set_title) taught ]} ∅ [].

Definition deleted : Response :=
  mkResponse true "Course deleted successfully" NoPayload.

End CourseSamples.

Module MiscSamples.
Import Misc.

(** A transport that delivers every message, and one that is down. *)
Definition delivering : Env :=
  mkEnv (JStr "support@lms.test") (λ _, None) (λ _, "1e+21").

Definition down : Env :=
  mkEnv (JStr "support@lms.test") (λ _, Some "connection refused") (λ _, "1e+21").

Definition enquiry : Request :=
  mkRequest {[ "name" := JStr "Ada"; "email" := JStr "ada@lms.test";
               "message" := JStr "Hello" ]}.

Definition enquiry_without_message : Request :=
  mkRequest {[ "name" := JStr "Ada"; "email" := JStr "ada@lms.test" ]}.

(** A body whose [name] is the object [{ "toString": "x" }]. *)
Definition enquiry_by_object : Request :=
  mkRequest {[ "name" := JObj {[ "toString" := JStr "x" ]};
               "email" := JStr "ada@lms.test"; "message" := JStr "Hello" ]}.

Definition quiet : World := mkWorld [] [].

End MiscSamples.

(** * Properties *)

(** ** Token verifier *)

Section TokenVerifier.
Import Auth.
Variable env : Env.

Lemma truthy_param_Some (o : option string) :
  truthy (of_param o) = true ↔ ∃ tok, o = Some tok ∧ tok ≠ "".
Proof.
  destruct o as [tok|]; simpl.
  - rewrite negb_true_iff, String.eqb_neq. split.
    + intros Hne. by exists tok.
    + by intros (tok' & [= <-] & Hne).
  - split; [done|]. by intros (tok & Heq & _).
Qed.

(** Without a usable [token] cookie the request is refused with 401 and
    the request is left as it was: no claim is attached. *)
Lemma isLoggedIn_missing_token (s : State) :
  truthy (of_param (cookies (req s) !! "token")) = false →
  isLoggedIn env s = (Normal (Next (Some Unauthenticated)), s).
Proof.
  intros Hfalsy. unfold isLoggedIn, bind, get_state, ret.
  by rewrite Hfalsy.
Qed.

(** When verification returns a falsy claim the request is refused with
    401 as well. *)
Lemma isLoggedIn_falsy_claim (s : State) (tok : string) (decoded : JsValue) :
  cookies (req s) !! "token" = Some tok → tok ≠ "" →
  jwt_verify env tok (JWT_SECRET env) = VerifyReturns decoded →
  truthy decoded = false →
  isLoggedIn env s = (Normal (Next (Some Unauthenticated)), s).
Proof.
  intros Htok Hne Hverify Hfalsy.
  assert (truthy (of_param (cookies (req s) !! "token")) = true) as Hpresent
    by (apply truthy_param_Some; eauto).
  unfold isLoggedIn, bind, get_state, ret, verify.
  rewrite Hpresent, Htok; simpl. rewrite Hverify; simpl.
  by rewrite Hfalsy.
Qed.

(** A truthy claim is attached to the request and control passes on. *)
Lemma isLoggedIn_accepts (s : State) (tok : string) (decoded : JsValue) :
  cookies (req s) !! "token" = Some tok → tok ≠ "" →
  jwt_verify env tok (JWT_SECRET env) = VerifyReturns decoded →
  truthy decoded = true →
  isLoggedIn env s =
    (Normal (Next None), mkState (mkRequest (cookies (req s)) decoded) (reads s)).
Proof.
  intros Htok Hne Hverify Htruthy.
  assert (truthy (of_param (cookies (req s) !! "token")) = true) as Hpresent
    by (apply truthy_param_Some; eauto).
  unfold isLoggedIn, bind, get_state, ret, verify.
  rewrite Hpresent, Htok; simpl. rewrite Hverify; simpl.
  by rewrite Htruthy.
Qed.

Lemma truthy_not_nullish (v : JsValue) : truthy v = true → nullish v = false.
Proof. by destruct v. Qed.

(** Whenever the verifier passes control on, it has attached a claim
    that is neither [undefined] nor [null]: what the guards after it
    rely on. *)
Lemma isLoggedIn_attaches_claim (s s' : State) :
  isLoggedIn env s = (Normal (Next None), s') →
  nullish (user (req s')) = false.
Proof.
  unfold isLoggedIn, bind, get_state, ret, verify, throw, set_req_user, modify.
  simpl.
  destruct (truthy (of_param (cookies (req s) !! "token"))); simpl; [|discriminate].
  destruct (jwt_verify env _ _) as [name msg|decoded]; simpl; [discriminate|].
  destruct (truthy decoded) eqn:Htruthy; simpl; [|discriminate].
  intros [= <-]. simpl. by apply truthy_not_nullish.
Qed.

(** C1 (as the code behaves): when [jwt.verify] throws, as it does on a
    bad signature, an expired or a malformed token, [isLoggedIn] does not
    call [next] with the 401 error, or with any error of its own: the
    library's exception leaves the handler as it is, and it carries no
    status code. *)
Theorem isLoggedIn_verify_throws_escapes (s : State) (tok name msg : string) :
  cookies (req s) !! "token" = Some tok → tok ≠ "" →
  jwt_verify env tok (JWT_SECRET env) = VerifyThrows name msg →
  isLoggedIn env s = (Throw (LibError "jsonwebtoken" (name +:+ ": " +:+ msg)), s)
  ∧ ∀ e s', isLoggedIn env s ≠ (Normal (Next (Some e)), s').
Proof.
  intros Htok Hne Hverify.
  assert (truthy (of_param (cookies (req s) !! "token")) = true) as Hpresent
    by (apply truthy_param_Some; eauto).
  assert (isLoggedIn env s =
          (Throw (LibError "jsonwebtoken" (name +:+ ": " +:+ msg)), s)) as Hrun.
  { unfold isLoggedIn, bind, get_state, ret, verify, throw.
    rewrite Hpresent, Htok; simpl. by rewrite Hverify. }
  split; [done|]. intros e s'. rewrite Hrun. discriminate.
Qed.

End TokenVerifier.

Lemma isLoggedIn_verify_throws_witness :
  Auth.isLoggedIn Samples.jwt Samples.malformed =
    (Throw (LibError "jsonwebtoken" "JsonWebTokenError: jwt malformed"), Samples.malformed)
  ∧ ∀ e s', Auth.isLoggedIn Samples.jwt Samples.malformed ≠ (Normal (Next (Some e)), s').
Proof.
  apply (isLoggedIn_verify_throws_escapes Samples.jwt Samples.malformed
           "garbage" "JsonWebTokenError" "jwt malformed").
  - reflexivity.
  - discriminate.
  - reflexivity.
Defined.

(** ** Access guard *)

Section AccessGuard.
Import Auth.

Lemma strict_eq_str_spec (v : JsValue) (lit : string) :
  strict_eq_str v lit = true ↔ v = JStr lit.
Proof.
  destruct v; simpl; try (split; [done|discriminate]).
  rewrite String.eqb_eq. split; [by intros ->|by intros [= ->]].
Qed.

Lemma strict_eq_str_false (v : JsValue) (lit : string) :
  strict_eq_str v lit = false ↔ v ≠ JStr lit.
Proof.
  rewrite <- not_true_iff_false. by rewrite strict_eq_str_spec.
Qed.

Lemma includes_spec (roles : list string) (v : JsValue) :
  includes roles v = true ↔ ∃ r, v = JStr r ∧ r ∈ roles.
Proof.
  unfold includes. rewrite existsb_exists. split.
  - intros (r & Hin & Heq). exists r. split.
    + by apply strict_eq_str_spec.
    + by apply list_elem_of_In.
  - intros (r & -> & Hin). exists r. split.
    + by apply list_elem_of_In.
    + by apply strict_eq_str_spec.
Qed.

(** Reading a property of a claim that is neither [undefined] nor
    [null] returns [prop] and records the read. *)
Lemma get_prop_defined (v : JsValue) (k : string) (s : State) :
  nullish v = false →
  get_prop v k s = (Normal (prop v k), after_reading s [k]).
Proof. by destruct v. Qed.

Lemma get_prop_nullish (v : JsValue) (k : string) (s : State) :
  nullish v = true →
  get_prop v k s = (Throw (TypeError k), s).
Proof. by destruct v. Qed.

Lemma authorizeRoles_run (roles : list string) (s : State) :
  nullish (user (req s)) = false →
  authorizeRoles roles s =
    (Normal (if includes roles (prop (user (req s)) "role")
             then Next None else Next (Some Forbidden_role)),
     after_reading s ["role"]).
Proof.
  intros Hclaim. unfold authorizeRoles, bind, req_user, get_state, ret; simpl.
  rewrite (get_prop_defined _ _ _ Hclaim).
  by destruct (includes roles _).
Qed.

(** C3: with a claim on the request, [authorizeRoles(...roles)] calls
    [next()] exactly when the claim's role is one of [roles] and
    [next(403)] exactly when it is not; the role ADMIN is looked up in
    [roles] like any other. *)
Theorem authorizeRoles_decision (roles : list string) (s : State) :
  nullish (user (req s)) = false →
  let role := prop (user (req s)) "role" in
  let allowed := ∃ r, role = JStr r ∧ r ∈ roles in
  (authorizeRoles roles s = (Normal (Next None), after_reading s ["role"]) ↔ allowed)
  ∧ (authorizeRoles roles s =
       (Normal (Next (Some Forbidden_role)), after_reading s ["role"]) ↔ ¬ allowed)
  ∧ statusCode Forbidden_role = 403
  ∧ (role = JStr "ADMIN" → "ADMIN" ∉ roles →
     authorizeRoles roles s =
       (Normal (Next (Some Forbidden_role)), after_reading s ["role"])).
Proof.
  intros Hclaim role allowed.
  rewrite (authorizeRoles_run roles s Hclaim). fold role.
  assert (includes roles role = true ↔ allowed) as Hspec by apply includes_spec.
  destruct (includes roles role) eqn:Hinc.
  - assert allowed as Hallowed by by apply Hspec.
    repeat split; try done.
    intros Hadmin Hnotin. destruct Hallowed as (r & Hr & Hin).
    rewrite Hadmin in Hr. injection Hr as <-. by destruct Hnotin.
  - assert (¬ allowed) as Hdenied.
    { intros Hallowed. apply Hspec in Hallowed. discriminate. }
    repeat split; try done.
Qed.

Lemma authorizeSubscribers_admin (s : State) :
  nullish (user (req s)) = false →
  prop (user (req s)) "role" = JStr "ADMIN" →
  authorizeSubscribers s = (Normal (Next None), after_reading s ["role"]).
Proof.
  intros Hclaim Hrole.
  unfold authorizeSubscribers, and_then, bind, req_user, get_state, ret; simpl.
  rewrite (get_prop_defined _ _ _ Hclaim), Hrole. done.
Qed.

Lemma authorizeSubscribers_subscriber (s : State) :
  nullish (user (req s)) = false →
  prop (user (req s)) "role" ≠ JStr "ADMIN" →
  nullish (prop (user (req s)) "subscription") = false →
  authorizeSubscribers s =
    (Normal (if strict_eq_str (prop (prop (user (req s)) "subscription") "status") "active"
             then Next None else Next (Some Forbidden_subscription)),
     after_reading s ["role"; "subscription"; "status"]).
Proof.
  intros Hclaim Hrole Hsub.
  apply strict_eq_str_false in Hrole.
  unfold authorizeSubscribers, and_then, bind, req_user, get_state, ret; simpl.
  rewrite (get_prop_defined _ _ _ Hclaim), Hrole. simpl.
  rewrite (get_prop_defined _ "subscription" _ Hclaim).
  rewrite (get_prop_defined _ "status" _ Hsub).
  unfold after_reading; simpl. rewrite <- !app_assoc; simpl.
  by destruct (strict_eq_str _ "active").
Qed.

Lemma authorizeSubscribers_no_subscription (s : State) :
  nullish (user (req s)) = false →
  prop (user (req s)) "role" ≠ JStr "ADMIN" →
  nullish (prop (user (req s)) "subscription") = true →
  authorizeSubscribers s =
    (Throw (TypeError "status"), after_reading s ["role"; "subscription"]).
Proof.
  intros Hclaim Hrole Hsub.
  apply strict_eq_str_false in Hrole.
  unfold authorizeSubscribers, and_then, bind, req_user, get_state, ret; simpl.
  rewrite (get_prop_defined _ _ _ Hclaim), Hrole. simpl.
  rewrite (get_prop_defined _ "subscription" _ Hclaim).
  rewrite (get_prop_nullish _ "status" _ Hsub).
  unfold after_reading; simpl. by rewrite <- !app_assoc.
Qed.

(** C2 (amended): with a claim on the request, [authorizeSubscribers]
    calls [next()] when the claim's role is ADMIN, whatever its
    subscription.  For any other role it calls [next()] exactly when the
    subscription's status is "active"; it calls [next(403)] exactly when
    the claim carries a subscription whose status is anything else; and
    when the claim carries no subscription ([undefined] or [null]) it
    does neither: it throws a [TypeError]. *)
Theorem authorizeSubscribers_decision (s : State) :
  nullish (user (req s)) = false →
  let role := prop (user (req s)) "role" in
  let subscription := prop (user (req s)) "subscription" in
  let status := prop subscription "status" in
  (role = JStr "ADMIN" → (authorizeSubscribers s).1 = Normal (Next None))
  ∧ (role ≠ JStr "ADMIN" →
     ((authorizeSubscribers s).1 = Normal (Next None) ↔ status = JStr "active")
     ∧ ((authorizeSubscribers s).1 = Normal (Next (Some Forbidden_subscription))
        ↔ nullish subscription = false ∧ status ≠ JStr "active")
     ∧ (nullish subscription = true →
        (authorizeSubscribers s).1 = Throw (TypeError "status")))
  ∧ statusCode Forbidden_subscription = 403.
Proof.
  intros Hclaim role subscription status. split; [|split; [|done]].
  - intros Hadmin. by rewrite authorizeSubscribers_admin.
  - intros Hrole.
    destruct (nullish subscription) eqn:Hsub.
    + rewrite (authorizeSubscribers_no_subscription s Hclaim Hrole Hsub). simpl.
      assert (status ≠ JStr "active") as Hstatus.
      { unfold status. by destruct subscription. }
      split_and!; [split; [discriminate|done]|split; [discriminate|]|done].
      by intros [? _].
    + rewrite (authorizeSubscribers_subscriber s Hclaim Hrole Hsub).
      fold subscription status. simpl.
      destruct (strict_eq_str status "active") eqn:Hactive.
      * apply strict_eq_str_spec in Hactive.
        split_and!; [done|split; [discriminate|]|discriminate].
        by intros [_ ?].
      * apply strict_eq_str_false in Hactive.
        split_and!; [split; [discriminate|done]|done|discriminate].
Qed.

(** C9 (amended): [authorizeSubscribers] reads only [role] from a claim
    whose role is ADMIN.  For any other role, a claim whose
    [subscription] is [undefined] or [null] makes the guard throw a
    [TypeError] after reading [role] and [subscription]; so a decision,
    403 or pass, is reached only with a subscription on the claim, and
    with one it is always reached, whether or not the subscription has a
    [status]. *)
Theorem authorizeSubscribers_reads (s : State) :
  nullish (user (req s)) = false →
  let role := prop (user (req s)) "role" in
  let subscription := prop (user (req s)) "subscription" in
  (role = JStr "ADMIN" →
   authorizeSubscribers s = (Normal (Next None), after_reading s ["role"]))
  ∧ (role ≠ JStr "ADMIN" →
     (nullish subscription = true →
      authorizeSubscribers s =
        (Throw (TypeError "status"), after_reading s ["role"; "subscription"]))
     ∧ (∀ signal s', authorizeSubscribers s = (Normal signal, s') →
        nullish subscription = false)
     ∧ (nullish subscription = false →
        ∃ signal, authorizeSubscribers s =
          (Normal signal, after_reading s ["role"; "subscription"; "status"]))).
Proof.
  intros Hclaim role subscription. split.
  - intros Hadmin. by apply authorizeSubscribers_admin.
  - intros Hrole. split; [|split].
    + intros Hsub. by apply authorizeSubscribers_no_subscription.
    + intros signal s' Hrun.
      destruct (nullish subscription) eqn:Hsub; [|done].
      rewrite (authorizeSubscribers_no_subscription s Hclaim Hrole Hsub) in Hrun.
      discriminate.
    + intros Hsub. eexists. by apply authorizeSubscribers_subscriber.
Qed.

End AccessGuard.

Lemma authorizeRoles_decision_witness :
  Auth.authorizeRoles ["ADMIN"] (Samples.verified (Samples.claim "USER" JUndefined)) =
    (Normal (Next (Some Forbidden_role)),
     after_reading (Samples.verified (Samples.claim "USER" JUndefined)) ["role"]).
Proof.
  destruct (authorizeRoles_decision ["ADMIN"]
              (Samples.verified (Samples.claim "USER" JUndefined)) eq_refl)
    as (_ & Hdenied & _).
  apply Hdenied. intros (r & Hrole & Hin).
  vm_compute in Hrole. injection Hrole as <-.
  apply list_elem_of_In in Hin. simpl in Hin. by destruct Hin as [?|[]].
Defined.

Lemma authorizeSubscribers_decision_witness :
  (Auth.authorizeSubscribers
     (Samples.verified (Samples.claim "USER" (Samples.subscription "active")))).1
  = Normal (Next None).
Proof.
  destruct (authorizeSubscribers_decision
              (Samples.verified (Samples.claim "USER" (Samples.subscription "active")))
              eq_refl) as (_ & Hsubscriber & _).
  destruct Hsubscriber as ((_ & Hactive) & _ & _).
  - vm_compute. discriminate.
  - apply Hactive. reflexivity.
Defined.

(** C2, as stated, fails: the claim [{ role: "USER" }] is not ADMIN and
    its subscription status is not "active", and the guard does not
    answer 403: it throws a [TypeError]. *)
Lemma authorizeSubscribers_throws_without_subscription :
  nullish Samples.unsubscribed = false
  ∧ prop Samples.unsubscribed "role" ≠ JStr "ADMIN"
  ∧ prop (prop Samples.unsubscribed "subscription") "status" ≠ JStr "active"
  ∧ Auth.authorizeSubscribers (Samples.verified Samples.unsubscribed) =
      (Throw (TypeError "status"),
       after_reading (Samples.verified Samples.unsubscribed) ["role"; "subscription"])
  ∧ (Auth.authorizeSubscribers (Samples.verified Samples.unsubscribed)).1
    ≠ Normal (Next (Some Forbidden_subscription)).
Proof.
  split_and!; [done|vm_compute; discriminate|vm_compute; discriminate|done|].
  vm_compute. discriminate.
Qed.

Lemma authorizeSubscribers_reads_witness :
  Auth.authorizeSubscribers (Samples.verified (Samples.claim "USER" JUndefined)) =
    (Throw (TypeError "status"),
     after_reading (Samples.verified (Samples.claim "USER" JUndefined))
       ["role"; "subscription"]).
Proof.
  destruct (authorizeSubscribers_reads
              (Samples.verified (Samples.claim "USER" JUndefined)) eq_refl)
    as (_ & Hother).
  apply Hother.
  - vm_compute. discriminate.
  - reflexivity.
Defined.

(** C9, as stated, fails: a claim [{ role: "USER", subscription: {} }]
    has no [status] field, and the guard still reaches a decision, 403. *)
Lemma authorizeSubscribers_decides_without_status :
  prop (JObj ∅) "status" = JUndefined
  ∧ (∅ : gmap string JsValue) !! "status" = None
  ∧ Auth.authorizeSubscribers (Samples.verified (Samples.claim "USER" (JObj ∅))) =
      (Normal (Next (Some Forbidden_subscription)),
       after_reading (Samples.verified (Samples.claim "USER" (JObj ∅)))
         ["role"; "subscription"; "status"]).
Proof. repeat split. Qed.

(** ** Course mutation workflow *)

Section CourseWorkflow.
Import Courses.
Variable env : Env.

(** Unlinking every listed file, one after the other, removes them all
    and never fails, as long as each is there and listed once. *)
Lemma for_of_unlink (files : list string) (d : gmap string Course)
    (u : gset string) (c : list CloudCall) :
  NoDup files → (∀ f, f ∈ files → f ∈ u) →
  for_of files fs_unlink (mkWorld d u c) =
    (Normal tt, mkWorld d (u ∖ list_to_set files) c).
Proof.
  revert u. induction files as [|f files IH]; intros u Hnodup Hin.
  - simpl. unfold ret. do 2 f_equal. set_solver.
  - apply NoDup_cons in Hnodup as [Hfresh Hnodup].
    simpl. unfold bind at 1. unfold fs_unlink at 1.
    unfold bind, get_state, set_uploads, modify. simpl.
    destruct (decide (f ∈ u)) as [_|Hout]; [|destruct Hout; apply Hin; set_solver].
    rewrite IH; [|done|].
    + do 2 f_equal. set_solver.
    + intros f' Hf'. apply elem_of_difference. split; [apply Hin; set_solver|].
      set_solver.
Qed.

(** The cleanup sweep leaves the staging directory empty and signals
    the upload failure with status 400. *)
Lemma purge_and_fail_run {R} (error : Exn) (w : World) :
  @purge_and_fail R error w =
    (Normal (Next (Some (mkApiError (upload_error_message error) 400))),
     mkWorld (db w) ∅ (cloud w)).
Proof.
  unfold purge_and_fail, bind, fs_readdir, get_state, ret. simpl.
  destruct w as [d u c]; simpl.
  rewrite for_of_unlink.
  - do 2 f_equal. apply set_eq. intros f.
    rewrite elem_of_difference, elem_of_list_to_set, elem_of_elements. set_solver.
  - apply NoDup_elements.
  - intros f. by rewrite elem_of_elements.
Qed.

Lemma createCourse_falsy_field (req : Request) (w : World) :
  truthy (body_title (body req)) = false
  ∨ truthy (body_description (body req)) = false
  ∨ truthy (body_category (body req)) = false
  ∨ truthy (body_createdBy (body req)) = false →
  createCourse env req w = (Normal (Next (Some ValidationFailed)), w).
Proof.
  intros Hfalsy. unfold createCourse.
  assert (negb (truthy (body_title (body req)))
          || negb (truthy (body_description (body req)))
          || negb (truthy (body_category (body req)))
          || negb (truthy (body_createdBy (body req))) = true) as ->; [|done].
  destruct Hfalsy as [-> | [-> | [-> | ->]]]; simpl;
    rewrite ?orb_true_r; done.
Qed.

(** C4: when the body lacks [title], [description], [category] or
    [createdBy], [createCourse] calls [next] with the 400 error and
    leaves the Course collection, and the rest of the world, as it was. *)
Theorem createCourse_missing_field (req : Request) (w : World) :
  body_title (body req) = JUndefined
  ∨ body_description (body req) = JUndefined
  ∨ body_category (body req) = JUndefined
  ∨ body_createdBy (body req) = JUndefined →
  createCourse env req w = (Normal (Next (Some ValidationFailed)), w)
  ∧ statusCode ValidationFailed = 400.
Proof.
  intros Hmissing. split; [|done].
  apply createCourse_falsy_field.
  destruct Hmissing as [-> | [-> | [-> | ->]]]; auto.
Qed.

(** C5: with the four fields present and accepted by the schema, a file
    attached and its upload failing, [createCourse] calls [next] with a
    400 error; the draft stays in the collection under its new id, with
    an empty thumbnail, and the staging directory is empty. *)
Theorem createCourse_upload_fails (req : Request) (w : World) (f : File) (json : string) :
  let t := body_title (body req) in
  let d := body_description (body req) in
  let c := body_category (body req) in
  let cb := body_createdBy (body req) in
  let id := new_ObjectId (dom (db w)) in
  let options := mkUploadOptions "lms" None None in
  truthy t = true → truthy d = true → truthy c = true → truthy cb = true →
  schema_accepts env (draft t d c cb) = true →
  file req = Some f →
  upload_outcome env (path f) options = UploadThrows json →
  ∃ error w',
    createCourse env req w = (Normal (Next (Some error)), w')
    ∧ statusCode error = 400
    ∧ db w' = <[id := draft t d c cb]> (db w)
    ∧ db w !! id = None
    ∧ db w' !! id = Some (draft t d c cb)
    ∧ uploads w' = ∅
    ∧ cloud w' = cloud w ++ [Upload (path f) options].
Proof.
  intros t d c cb id options Ht Hd Hc Hcb Hschema Hfile Hupload.
  unfold createCourse. fold t d c cb. rewrite Ht, Hd, Hc, Hcb. simpl.
  unfold bind at 1. unfold Course_create.
  unfold bind at 1. unfold get_state at 1. rewrite Hschema.
  unfold bind at 1. unfold set_db at 1, modify at 1. unfold ret at 1.
  rewrite Hfile. unfold bind at 1. unfold try_catch.
  unfold bind at 1. unfold cloudinary_upload.
  unfold bind at 1. unfold log_call, modify. fold options. rewrite Hupload.
  unfold throw. unfold bind at 1. rewrite purge_and_fail_run. simpl.
  unfold ret. eexists _, _. split; [reflexivity|]. simpl.
  fold id. repeat split.
  - apply not_elem_of_dom. unfold id, new_ObjectId.
    pose proof (is_fresh ({[""]} ∪ dom (db w))) as Hfresh. set_solver.
  - apply lookup_insert_eq.
Qed.

(** *** What a successful run of each handler has done *)

Ltac unfold_handler :=
  unfold createCourse, addLectureToCourseById, removeLectureFromCourse,
    updateCourseById, Course_create, Course_findById, Course_findByIdAndUpdate,
    Course_save, cloudinary_upload, cloudinary_destroy, purge_and_fail,
    fs_rm, fs_readdir, set_db, set_uploads, log_call, fail, try_catch,
    bind, ret, throw, get_state, modify in *.

Lemma createCourse_success (req : Request) (w w' : World) (status : Z) (r : Response) :
  createCourse env req w = (Normal (Respond status r), w') →
  ∃ id course,
    r = mkResponse true "Course created successfully" (CoursePayload id course)
    ∧ status = 201
    ∧ db w' !! id = Some course
    ∧ lectures course = []
    ∧ numberOfLectures course = 0.
Proof.
  intros Hrun. unfold_handler.
  repeat (case_match; simplify_eq/=);
    eexists _, _; (repeat split; [reflexivity ..|]); by rewrite lookup_insert_eq.
Qed.

Lemma addLecture_success (req : Request) (w w' : World) (status : Z) (r : Response) :
  addLectureToCourseById env req w = (Normal (Respond status r), w') →
  ∃ i course data,
    params req !! "id" = Some i
    ∧ db w !! i = Some course
    ∧ truthy (body_title (body req)) = true
    ∧ truthy (body_description (body req)) = true
    ∧ db w' = <[i := lecture_added course (body_title (body req))
                       (body_description (body req)) data]> (db w)
    ∧ (file req = None → data = no_asset)
    ∧ status = 200.
Proof.
  intros Hrun. unfold_handler.
  destruct (truthy (body_title (body req))) eqn:Ht; [|by simplify_eq/=].
  destruct (truthy (body_description (body req))) eqn:Hd; [|by simplify_eq/=].
  simpl in Hrun.
  destruct (params req !! "id") as [i|] eqn:Hid; [|by simplify_eq/=].
  simpl in Hrun.
  destruct (db w !! i) as [course|] eqn:Hcourse; [|by simplify_eq/=].
  simpl in Hrun.
  repeat (case_match; simplify_eq/=);
    eexists i, course, _; split_and!; done.
Qed.

Lemma findIndex_bounds {A} (p : A → bool) (ls : list A) :
  -1 ≤ findIndex p ls < Z.of_nat (length ls).
Proof.
  induction ls as [|x ls IH]; simpl; [lia|].
  destruct (p x); [lia|].
  destruct (Z.eqb_spec (findIndex p ls) (-1)); lia.
Qed.

Lemma findIndex_none {A} (p : A → bool) (ls : list A) :
  findIndex p ls = -1 ↔ ∀ x, x ∈ ls → p x = false.
Proof.
  induction ls as [|x ls IH]; simpl.
  - split; [|done]. intros _ x Hx. by apply elem_of_nil in Hx.
  - destruct (p x) eqn:Hpx.
    + split; [done|]. intros Hall. rewrite Hall in Hpx; [done|set_solver].
    + pose proof (findIndex_bounds p ls).
      destruct (Z.eqb_spec (findIndex p ls) (-1)) as [Hnone|Hsome].
      * split; [|done]. intros _ y Hy. apply elem_of_cons in Hy as [->|Hy]; [done|].
        by apply IH.
      * split; [lia|]. intros Hall. destruct Hsome. apply IH.
        intros y Hy. apply Hall. set_solver.
Qed.

Lemma findIndex_found {A} (p : A → bool) (ls : list A) :
  findIndex p ls ≠ -1 →
  ∃ x, ls !! Z.to_nat (findIndex p ls) = Some x ∧ p x = true.
Proof.
  induction ls as [|x ls IH]; simpl; [done|].
  destruct (p x) eqn:Hpx; [by exists x|].
  pose proof (findIndex_bounds p ls).
  destruct (Z.eqb_spec (findIndex p ls) (-1)) as [Hnone|Hsome]; [done|].
  intros _. destruct (IH Hsome) as (y & Hy & Hpy). exists y. split; [|done].
  replace (Z.to_nat (findIndex p ls + 1)) with (S (Z.to_nat (findIndex p ls))) by lia.
  done.
Qed.

(** The first match is the last element when nothing before it matches. *)
Lemma findIndex_last {A} (p : A → bool) (ls : list A) (y : A) :
  (∀ x, x ∈ ls → p x = false) → p y = true →
  findIndex p (ls ++ [y]) = Z.of_nat (length ls).
Proof.
  induction ls as [|x ls IH]; intros Hall Hy; simpl.
  - by rewrite Hy.
  - rewrite Hall by set_solver. rewrite IH; [|set_solver|done].
    destruct (Z.eqb_spec (Z.of_nat (length ls)) (-1)); lia.
Qed.

Lemma splice1_length {A} (i : Z) (ls : list A) :
  0 ≤ i < Z.of_nat (length ls) →
  Z.of_nat (length (splice1 i ls)) = Z.of_nat (length ls) - 1.
Proof.
  intros Hi. unfold splice1. rewrite length_app, length_take, length_drop. lia.
Qed.

Lemma splice1_last {A} (ls : list A) (y : A) :
  splice1 (Z.of_nat (length ls)) (ls ++ [y]) = ls.
Proof.
  unfold splice1. rewrite Nat2Z.id.
  rewrite take_app_length. rewrite drop_ge by (rewrite length_app; simpl; lia).
  by rewrite app_nil_r.
Qed.

Lemma removeLecture_success (req : Request) (w w' : World) (status : Z) (r : Response) :
  removeLectureFromCourse env req w = (Normal (Respond status r), w') →
  ∃ i lectureId course located,
    query req !! "courseId" = Some i
    ∧ query req !! "lectureId" = Some lectureId
    ∧ db w !! i = Some course
    ∧ findIndex (has_id lectureId) (lectures course) ≠ -1
    ∧ lectures course !! Z.to_nat (findIndex (has_id lectureId) (lectures course))
        = Some located
    ∧ destroy_outcome env (public_id (lecture located)) "video" = None
    ∧ w' = mkWorld
             (<[i := lecture_removed course
                       (findIndex (has_id lectureId) (lectures course))]> (db w))
             (uploads w)
             (cloud w ++ [Destroy (public_id (lecture located)) "video"])
    ∧ status = 200.
Proof.
  intros Hrun. unfold_handler.
  destruct (query req !! "courseId") as [i|] eqn:Hcid; [|by simplify_eq/=].
  destruct (query req !! "lectureId") as [lectureId|] eqn:Hlid;
    [|simpl in Hrun; by repeat (case_match; simplify_eq/=)].
  simpl in Hrun.
  destruct (negb (String.eqb i "")); [|by simplify_eq/=].
  destruct (negb (String.eqb lectureId "")); [|by simplify_eq/=].
  simpl in Hrun.
  destruct (db w !! i) as [course|] eqn:Hcourse; [|by simplify_eq/=].
  simpl in Hrun. fold (has_id lectureId) in Hrun.
  destruct (Z.eqb_spec (findIndex (has_id lectureId) (lectures course)) (-1))
    as [|Hfound]; [by simplify_eq/=|].
  destruct (lectures course !! _) as [located|] eqn:Hlocated; [|by simplify_eq/=].
  repeat (case_match; simplify_eq/=).
  by eexists i, lectureId, course, located.
Qed.

Lemma updateCourse_success (req : Request) (w w' : World) (status : Z) (r : Response) :
  updateCourseById env req w = (Normal (Respond status r), w') →
  ∃ i course,
    params req !! "id" = Some i
    ∧ db w !! i = Some course
    ∧ db w' = <[i := apply_set (body req) course]> (db w)
    ∧ status = 200.
Proof.
  intros Hrun. unfold_handler.
  destruct (update_accepts env (body req)); [|by simplify_eq/=].
  destruct (params req !! "id") as [i|] eqn:Hid; [|by simplify_eq/=].
  simpl in Hrun.
  destruct (db w !! i) as [course|] eqn:Hcourse; simplify_eq/=.
  by eexists i, course.
Qed.

(** Removing a lecture that has been located: the asset host is called
    first; if that call throws nothing else happens, otherwise the
    spliced course is saved. *)
Lemma removeLecture_located (req : Request) (w : World) (i lectureId : string)
    (course : Course) (located : Lecture) :
  let index := findIndex (has_id lectureId) (lectures course) in
  let called := mkWorld (db w) (uploads w)
                  (cloud w ++ [Destroy (public_id (lecture located)) "video"]) in
  query req !! "courseId" = Some i → i ≠ "" →
  query req !! "lectureId" = Some lectureId → lectureId ≠ "" →
  db w !! i = Some course →
  index ≠ -1 →
  lectures course !! Z.to_nat index = Some located →
  removeLectureFromCourse env req w =
    match destroy_outcome env (public_id (lecture located)) "video" with
    | Some json => (Throw (LibError "cloudinary" json), called)
    | None =>
        if schema_accepts env (lecture_removed course index) then
          (Normal (Respond 200
                     (mkResponse true "Course lecture removed successfully" NoPayload)),
           mkWorld (<[i := lecture_removed course index]> (db w)) (uploads w) (cloud called))
        else (Throw ValidationError, called)
    end.
Proof.
  intros index called Hcid Hi Hlid Hl Hcourse Hindex Hlocated.
  apply String.eqb_neq in Hi, Hl.
  unfold_handler. rewrite Hcid, Hlid. simpl. rewrite Hi, Hl. simpl.
  rewrite Hcourse. simpl. fold (has_id lectureId). fold index.
  destruct (Z.eqb_spec index (-1)) as [|_]; [done|].
  rewrite Hlocated.
  destruct (destroy_outcome env _ _); [done|].
  unfold lecture_removed. simpl. by destruct (schema_accepts env _).
Qed.

(** C8: on an existing course, a lecture id that no lecture of the
    course has makes [removeLectureFromCourse] call [next] with the 404
    error, and nothing changes: the course keeps its lecture list and
    its count, no call reaches the asset host. *)
Theorem removeLecture_unknown_lecture (req : Request) (w : World)
    (i lectureId : string) (course : Course) :
  query req !! "courseId" = Some i → i ≠ "" →
  query req !! "lectureId" = Some lectureId → lectureId ≠ "" →
  db w !! i = Some course →
  (∀ l, l ∈ lectures course → lecture_id l ≠ lectureId) →
  removeLectureFromCourse env req w = (Normal (Next (Some NotFound_lecture)), w)
  ∧ statusCode NotFound_lecture = 404.
Proof.
  intros Hcid Hi Hlid Hl Hcourse Hunknown. split; [|done].
  apply String.eqb_neq in Hi, Hl.
  unfold_handler. rewrite Hcid, Hlid. simpl. rewrite Hi, Hl. simpl.
  rewrite Hcourse. simpl. fold (has_id lectureId).
  assert (findIndex (has_id lectureId) (lectures course) = -1) as ->; [|done].
  apply findIndex_none. intros l Hin. unfold has_id.
  apply String.eqb_neq. by apply Hunknown.
Qed.

(** C10: a successful [removeLectureFromCourse] has located the first
    lecture with the requested id and has called the asset host's
    destroy with that lecture's [public_id] and resource type "video",
    once; the [public_id] is [undefined] when the lecture's asset
    reference is empty.  The call comes before the list is touched:
    when it throws, the collection is as it was. *)
Theorem removeLecture_destroys_asset (req : Request) (w : World) :
  (∀ w' status r,
     removeLectureFromCourse env req w = (Normal (Respond status r), w') →
     ∃ i lectureId course located,
       query req !! "courseId" = Some i
       ∧ query req !! "lectureId" = Some lectureId
       ∧ db w !! i = Some course
       ∧ lectures course !! Z.to_nat (findIndex (has_id lectureId) (lectures course))
           = Some located
       ∧ lecture_id located = lectureId
       ∧ cloud w' = cloud w ++ [Destroy (public_id (lecture located)) "video"]
       ∧ (lecture located = no_asset → cloud w' = cloud w ++ [Destroy None "video"]))
  ∧ (∀ i lectureId course located json,
       query req !! "courseId" = Some i → i ≠ "" →
       query req !! "lectureId" = Some lectureId → lectureId ≠ "" →
       db w !! i = Some course →
       findIndex (has_id lectureId) (lectures course) ≠ -1 →
       lectures course !! Z.to_nat (findIndex (has_id lectureId) (lectures course))
         = Some located →
       destroy_outcome env (public_id (lecture located)) "video" = Some json →
       removeLectureFromCourse env req w =
         (Throw (LibError "cloudinary" json),
          mkWorld (db w) (uploads w)
            (cloud w ++ [Destroy (public_id (lecture located)) "video"]))).
Proof.
  split.
  - intros w' status r Hrun.
    apply removeLecture_success in Hrun
      as (i & lectureId & course & located & Hcid & Hlid & Hcourse & Hindex
          & Hlocated & _ & -> & _).
    exists i, lectureId, course, located. split_and!; try done.
    + destruct (findIndex_found _ _ Hindex) as (l & Hl & Hid).
      rewrite Hlocated in Hl. injection Hl as <-.
      by apply String.eqb_eq in Hid.
    + by intros ->.
  - intros i lectureId course located json Hcid Hi Hlid Hl Hcourse Hindex Hlocated Hthrows.
    rewrite (removeLecture_located req w i lectureId course located); try done.
    by rewrite Hthrows.
Qed.

(** A lecture added without a file carries the empty asset reference. *)
Lemma addLecture_without_file (req : Request) (w w' : World) (status : Z) (r : Response) :
  file req = None →
  addLectureToCourseById env req w = (Normal (Respond status r), w') →
  ∃ i course added,
    params req !! "id" = Some i
    ∧ db w !! i = Some course
    ∧ db w' !! i = Some (lecture_added course (body_title (body req))
                           (body_description (body req)) no_asset)
    ∧ last (lectures (lecture_added course (body_title (body req))
                        (body_description (body req)) no_asset)) = Some added
    ∧ lecture added = no_asset.
Proof.
  intros Hfile Hrun.
  apply addLecture_success in Hrun
    as (i & course & data & Hid & Hcourse & _ & _ & Hdb & Hdata & _).
  rewrite (Hdata Hfile) in Hdb.
  eexists i, course, _. split_and!; try done.
  - rewrite Hdb. apply lookup_insert_eq.
  - simpl. unfold push. apply last_snoc.
  - done.
Qed.

Lemma lecture_added_consistent (course : Course) (t d : JsValue) (data : Asset) :
  count_consistent (lecture_added course t d data).
Proof. done. Qed.

Lemma lecture_removed_consistent (course : Course) (i : Z) :
  count_consistent (lecture_removed course i).
Proof. done. Qed.

(** An update that sets neither [lectures] nor [numberOfLectures] keeps
    both as they were. *)
Lemma apply_set_keeps_count (b : Body) (course : Course) :
  body_lectures b = None → body_numberOfLectures b = None →
  count_consistent course → count_consistent (apply_set b course).
Proof.
  unfold count_consistent, apply_set. simpl. by intros -> ->.
Qed.

(** C6 (amended): after a successful create, add-lecture or
    remove-lecture, the stored course has [numberOfLectures] equal to the
    length of [lectures].  A successful update stores the body merged
    into the course and recomputes nothing: the equality holds after it
    when it held before and the body sets neither [lectures] nor
    [numberOfLectures]. *)
Theorem count_consistent_after_mutation (req : Request) (w w' : World)
    (status : Z) (r : Response) :
  (createCourse env req w = (Normal (Respond status r), w') →
   ∃ id course,
     payload r = CoursePayload id course
     ∧ db w' !! id = Some course ∧ count_consistent course)
  ∧ (addLectureToCourseById env req w = (Normal (Respond status r), w') →
     ∃ i course,
       params req !! "id" = Some i
       ∧ db w' !! i = Some course ∧ count_consistent course)
  ∧ (removeLectureFromCourse env req w = (Normal (Respond status r), w') →
     ∃ i course,
       query req !! "courseId" = Some i
       ∧ db w' !! i = Some course ∧ count_consistent course)
  ∧ (updateCourseById env req w = (Normal (Respond status r), w') →
     ∃ i before,
       params req !! "id" = Some i
       ∧ db w !! i = Some before
       ∧ db w' !! i = Some (apply_set (body req) before)
       ∧ (count_consistent before →
          body_lectures (body req) = None →
          body_numberOfLectures (body req) = None →
          count_consistent (apply_set (body req) before))).
Proof.
  split_and!.
  - intros Hrun.
    apply createCourse_success in Hrun as (id & course & -> & _ & Hdb & Hnil & Hzero).
    exists id, course. split_and!; try done.
    unfold count_consistent. by rewrite Hnil, Hzero.
  - intros Hrun.
    apply addLecture_success in Hrun
      as (i & course & data & Hid & _ & _ & _ & Hdb & _).
    eexists i, _. split_and!; [done| |apply lecture_added_consistent].
    rewrite Hdb. apply lookup_insert_eq.
  - intros Hrun.
    apply removeLecture_success in Hrun
      as (i & lectureId & course & located & Hcid & _ & _ & _ & _ & _ & -> & _).
    eexists i, _. split_and!; [done| |apply lecture_removed_consistent].
    simpl. apply lookup_insert_eq.
  - intros Hrun.
    apply updateCourse_success in Hrun as (i & before & Hid & Hbefore & Hdb & _).
    exists i, before. split_and!; try done.
    + rewrite Hdb. apply lookup_insert_eq.
    + intros Hconsistent Hlectures Hcount. by apply apply_set_keeps_count.
Qed.

(** The identifier given to a pushed lecture is not empty and belongs to
    no lecture already in the list. *)
Lemma new_ObjectId_fresh (used : gset string) :
  new_ObjectId used ≠ "" ∧ new_ObjectId used ∉ used.
Proof.
  unfold new_ObjectId.
  pose proof (is_fresh ({[""]} ∪ used)) as Hfresh. set_solver.
Qed.

Lemma push_fresh (ls : list Lecture) (t d : JsValue) (data : Asset) :
  ∃ added,
    push ls t d data = ls ++ [added]
    ∧ lecture added = data
    ∧ lecture_id added ≠ ""
    ∧ ∀ l, l ∈ ls → has_id (lecture_id added) l = false.
Proof.
  eexists. split; [reflexivity|]. simpl.
  destruct (new_ObjectId_fresh (list_to_set (lecture_id <$> ls))) as [Hne Hfresh].
  split_and!; try done.
  intros l Hl. unfold has_id. apply String.eqb_neq. intros Heq.
  apply Hfresh. rewrite <- Heq. apply elem_of_list_to_set.
  by apply list_elem_of_fmap_2.
Qed.

(** C7: on an existing course, a successful add-lecture followed by a
    successful remove-lecture of the lecture just added leaves the course
    with the lecture list it had before the add, hence of the same
    length, and with [numberOfLectures] equal to that length. *)
Theorem add_then_remove_restores (add remove : Request) (w w1 w2 : World)
    (i : string) (course : Course) (status1 status2 : Z) (r1 r2 : Response) :
  db w !! i = Some course →
  params add !! "id" = Some i →
  addLectureToCourseById env add w = (Normal (Respond status1 r1), w1) →
  ∃ course1 added,
    db w1 !! i = Some course1
    ∧ lectures course1 = lectures course ++ [added]
    ∧ truthy (body_title (body add)) = true
    ∧ truthy (body_description (body add)) = true
    ∧ (query remove !! "courseId" = Some i →
       query remove !! "lectureId" = Some (lecture_id added) →
       removeLectureFromCourse env remove w1 = (Normal (Respond status2 r2), w2) →
       ∃ course2,
         db w2 !! i = Some course2
         ∧ lectures course2 = lectures course
         ∧ length (lectures course2) = length (lectures course)
         ∧ numberOfLectures course2 = Z.of_nat (length (lectures course))).
Proof.
  intros Hcourse Hid Hadd.
  apply addLecture_success in Hadd
    as (i' & course' & data & Hid' & Hcourse' & Ht & Hd & Hdb1 & _ & _).
  rewrite Hid in Hid'. injection Hid' as <-.
  rewrite Hcourse in Hcourse'. injection Hcourse' as <-.
  destruct (push_fresh (lectures course) (body_title (body add))
              (body_description (body add)) data)
    as (added & Hpush & _ & _ & Hfresh).
  eexists _, added. split_and!; try done.
  - rewrite Hdb1. apply lookup_insert_eq.
  - simpl. exact Hpush.
  - intros Hcid Hlid Hremove.
    apply removeLecture_success in Hremove
      as (i' & lectureId & course1 & located & Hcid' & Hlid' & Hcourse1 & _ & _ & _
          & -> & _).
    rewrite Hcid in Hcid'. injection Hcid' as <-.
    rewrite Hlid in Hlid'. injection Hlid' as <-.
    rewrite Hdb1, lookup_insert_eq in Hcourse1. injection Hcourse1 as <-.
    eexists. split; [apply lookup_insert_eq|]. simpl. rewrite Hpush.
    rewrite findIndex_last, splice1_last; [done|done|].
    unfold has_id. apply String.eqb_refl.
Qed.

(** Both steps do succeed when nothing outside the controller fails:
    with a title and a description, no file, a schema that accepts the
    two documents and an asset host that answers the destroy call. *)
Lemma add_then_remove_runs (add remove : Request) (w : World) (i : string)
    (course : Course) :
  let t := body_title (body add) in
  let d := body_description (body add) in
  let course1 := lecture_added course t d no_asset in
  db w !! i = Some course → i ≠ "" →
  params add !! "id" = Some i →
  truthy t = true → truthy d = true → file add = None →
  schema_accepts env course1 = true →
  schema_accepts env
    (lecture_removed course1 (Z.of_nat (length (lectures course)))) = true →
  destroy_outcome env None "video" = None →
  ∃ w1 r1 lecture1,
    addLectureToCourseById env add w = (Normal (Respond 200 r1), w1)
    ∧ lectures course1 = lectures course ++ [lecture1]
    ∧ (query remove !! "courseId" = Some i →
       query remove !! "lectureId" = Some (lecture_id lecture1) →
       ∃ w2 r2, removeLectureFromCourse env remove w1 = (Normal (Respond 200 r2), w2)).
Proof.
  intros t d course1 Hcourse Hi Hid Ht Hd Hfile Hsave1 Hsave2 Hdestroy.
  destruct (push_fresh (lectures course) t d no_asset)
    as (lecture1 & Hpush & Hasset & Hne & Hfresh).
  assert (findIndex (has_id (lecture_id lecture1)) (lectures course1)
          = Z.of_nat (length (lectures course))) as Hindex.
  { simpl. rewrite Hpush. apply findIndex_last; [done|].
    unfold has_id. apply String.eqb_refl. }
  eexists _, _, lecture1. split_and!.
  - unfold_handler. fold t d. rewrite Ht, Hd, Hid. simpl. rewrite Hcourse. simpl.
    rewrite Hfile. unfold course1, lecture_added in Hsave1. simpl in Hsave1.
    rewrite Hsave1. reflexivity.
  - exact Hpush.
  - intros Hcid Hlid.
    erewrite (removeLecture_located remove _ i (lecture_id lecture1) course1 lecture1);
      try done.
    + cbv zeta. rewrite Hindex, Hasset. simpl. rewrite Hdestroy, Hsave2.
      by eexists _, _.
    + simpl. apply lookup_insert_eq.
    + rewrite Hindex. lia.
    + rewrite Hindex, Nat2Z.id. simpl. rewrite Hpush.
      rewrite lookup_app_r by lia. by rewrite Nat.sub_diag.
Qed.

End CourseWorkflow.

Section CourseWitnesses.
Import Courses CourseSamples.

Lemma createCourse_missing_field_witness :
  createCourse cooperative create_without_title staging =
    (Normal (Next (Some ValidationFailed)), staging)
  ∧ statusCode ValidationFailed = 400.
Proof.
  apply (createCourse_missing_field cooperative create_without_title staging).
  left. reflexivity.
Defined.

Lemma createCourse_upload_fails_witness :
  ∃ error w',
    createCourse failing_uploads create_with_file staging = (Normal (Next (Some error)), w')
    ∧ statusCode error = 400
    ∧ db w' !! "0" = Some algebra
    ∧ uploads w' = ∅.
Proof.
  destruct (createCourse_upload_fails failing_uploads create_with_file staging
              (mkFile "uploads/a.png" "a.png") "{}"
              eq_refl eq_refl eq_refl eq_refl eq_refl eq_refl eq_refl)
    as (error & w' & Hrun & Hcode & _ & _ & Hdraft & Hempty & _).
  exists error, w'. split_and!; done.
Defined.

(** C6, as stated, fails on update: the body [{ numberOfLectures: 7 }]
    is stored as sent on a course that has no lecture. *)
Lemma updateCourse_breaks_count :
  ∃ w' after,
    count_consistent algebra
    ∧ db stored !! "c1" = Some algebra
    ∧ updateCourseById cooperative set_count stored = (Normal (Respond 200 updated), w')
    ∧ db w' !! "c1" = Some after
    ∧ lectures after = []
    ∧ numberOfLectures after = 7
    ∧ ¬ count_consistent after.
Proof.
  eexists _, _. split_and!; [done|done|reflexivity|reflexivity|done|done|].
  unfold count_consistent. simpl. lia.
Qed.

Lemma count_consistent_after_mutation_witness :
  (∃ w' r id course,
     createCourse cooperative create_without_file staging = (Normal (Respond 201 r), w')
     ∧ payload r = CoursePayload id course
     ∧ db w' !! id = Some course ∧ count_consistent course)
  ∧ (∃ i course,
       params add_lecture !! "id" = Some i
       ∧ db after_add !! i = Some course ∧ count_consistent course)
  ∧ (∃ i course,
       query (remove_lecture "l1") !! "courseId" = Some i
       ∧ db after_remove !! i = Some course ∧ count_consistent course)
  ∧ (∃ w' i before,
       updateCourseById cooperative set_title teaching = (Normal (Respond 200 updated), w')
       ∧ db teaching !! i = Some before
       ∧ db w' !! i = Some (apply_set (body set_title) before)
       ∧ count_consistent (apply_set (body set_title) before)).
Proof.
  split_and!.
  - eexists _, _.
    edestruct (count_consistent_after_mutation cooperative create_without_file staging)
      as ((id & course & Hpayload & Hdb & Hcount) & _); [reflexivity|].
    exists id, course. split_and!; [reflexivity|done..].
  - apply (count_consistent_after_mutation cooperative add_lecture stored after_add 200 added).
    reflexivity.
  - apply (count_consistent_after_mutation cooperative (remove_lecture "l1") teaching
             after_remove 200 removed).
    reflexivity.
  - eexists _.
    edestruct (count_consistent_after_mutation cooperative set_title teaching)
      as (_ & _ & _ & Hupdate).
    destruct Hupdate as (i & before & Hid & Hbefore & Hdb & Hcount); [reflexivity|].
    exists i, before. split_and!; [reflexivity|done|done|].
    apply Hcount; [|reflexivity|reflexivity].
    vm_compute in Hid. injection Hid as <-.
    vm_compute in Hbefore. injection Hbefore as <-. reflexivity.
Defined.

Lemma add_then_remove_restores_witness :
  addLectureToCourseById cooperative add_lecture stored = (Normal (Respond 200 added), after_add)
  ∧ removeLectureFromCourse cooperative (remove_lecture "0") after_add =
      (Normal (Respond 200 removed), mkWorld {[ "c1" := algebra ]} ∅ [Destroy None "video"])
  ∧ ∃ course2,
      db (mkWorld {[ "c1" := algebra ]} ∅ [Destroy None "video"]) !! "c1" = Some course2
      ∧ lectures course2 = lectures algebra
      ∧ length (lectures course2) = length (lectures algebra)
      ∧ numberOfLectures course2 = Z.of_nat (length (lectures algebra)).
Proof.
  split; [reflexivity|]. split; [reflexivity|].
  destruct (add_then_remove_restores cooperative add_lecture (remove_lecture "0")
              stored after_add
              (mkWorld {[ "c1" := algebra ]} ∅ [Destroy None "video"])
              "c1" algebra 200 200 added removed eq_refl eq_refl eq_refl)
    as (course1 & lecture1 & Hdb1 & Hlectures & _ & _ & Hremove).
  apply Hremove; [reflexivity| |reflexivity].
  vm_compute in Hdb1. injection Hdb1 as <-.
  vm_compute in Hlectures. injection Hlectures as <-. reflexivity.
Defined.

Lemma removeLecture_unknown_lecture_witness :
  removeLectureFromCourse cooperative (remove_lecture "l2") teaching =
    (Normal (Next (Some NotFound_lecture)), teaching)
  ∧ statusCode NotFound_lecture = 404.
Proof.
  apply (removeLecture_unknown_lecture cooperative (remove_lecture "l2") teaching
           "c1" "l2" taught).
  - reflexivity.
  - discriminate.
  - reflexivity.
  - discriminate.
  - reflexivity.
  - intros l Hl. apply list_elem_of_singleton in Hl as ->. discriminate.
Defined.

Lemma removeLecture_destroys_asset_witness :
  ∃ i lectureId course located,
    query (remove_lecture "l1") !! "courseId" = Some i
    ∧ query (remove_lecture "l1") !! "lectureId" = Some lectureId
    ∧ db teaching !! i = Some course
    ∧ lectures course !! Z.to_nat (findIndex (has_id lectureId) (lectures course))
        = Some located
    ∧ lecture_id located = lectureId
    ∧ cloud after_remove = cloud teaching ++ [Destroy (public_id (lecture located)) "video"]
    ∧ (lecture located = no_asset →
       cloud after_remove = cloud teaching ++ [Destroy None "video"]).
Proof.
  apply (proj1 (removeLecture_destroys_asset cooperative (remove_lecture "l1") teaching)
           after_remove 200 removed).
  reflexivity.
Defined.

End CourseWitnesses.

(** ** Further properties of the token verifier and the access guard *)

Section VerifierAndGuards.
Import Auth.
Variable env : Env.

(** X1: [isLoggedIn] passes control on only for a token that
    [jwt.verify] returned a truthy claim for, and then changes nothing
    but [req.user]; in every other case, refusal or exception, the
    request is exactly as it was. *)
Theorem isLoggedIn_pass_only_if_verified (s s' : State) (out : Completion (Signal unit)) :
  isLoggedIn env s = (out, s') →
  (out = Normal (Next None) →
   ∃ tok decoded,
     cookies (req s) !! "token" = Some tok ∧ tok ≠ ""
     ∧ jwt_verify env tok (JWT_SECRET env) = VerifyReturns decoded
     ∧ truthy decoded = true
     ∧ s' = mkState (mkRequest (cookies (req s)) decoded) (reads s))
  ∧ (out ≠ Normal (Next None) → s' = s).
Proof.
  unfold isLoggedIn, bind, get_state, ret, verify, throw, set_req_user, modify.
  simpl.
  destruct (truthy (of_param (cookies (req s) !! "token"))) eqn:Hpresent; simpl.
  - apply truthy_param_Some in Hpresent as (tok & Htok & Hne). rewrite Htok. simpl.
    destruct (jwt_verify env tok (JWT_SECRET env)) as [name msg|decoded] eqn:Hverify;
      simpl.
    + intros [= <- <-]. split; [discriminate|done].
    + destruct (truthy decoded) eqn:Htruthy; simpl; intros [= <- <-].
      * split; [|done]. intros _. by exists tok, decoded.
      * split; [discriminate|done].
  - intros [= <- <-]. split; [discriminate|done].
Qed.

(** X2: after [isLoggedIn] has passed control on, [authorizeRoles]
    always reaches a decision, [next()] or [next(403)], and never
    throws. *)
Theorem authorizeRoles_after_isLoggedIn (roles : list string) (s s1 : State) :
  isLoggedIn env s = (Normal (Next None), s1) →
  ∃ signal,
    authorizeRoles roles s1 = (Normal signal, after_reading s1 ["role"])
    ∧ (signal = Next None ∨ signal = Next (Some Forbidden_role)).
Proof.
  intros Hpass. apply isLoggedIn_attaches_claim in Hpass.
  rewrite (authorizeRoles_run roles s1 Hpass).
  destruct (includes roles _); eauto.
Qed.

End VerifierAndGuards.

Section Guards.
Import Auth.

Lemma guards_no_claim (roles : list string) (s : State) :
  nullish (user (req s)) = true →
  authorizeRoles roles s = (Throw (TypeError "role"), s)
  ∧ authorizeSubscribers s = (Throw (TypeError "role"), s).
Proof.
  intros Hnone. split.
  - unfold authorizeRoles, bind, req_user, get_state, ret; simpl.
    by rewrite (get_prop_nullish _ _ _ Hnone).
  - unfold authorizeSubscribers, and_then, bind, req_user, get_state, ret; simpl.
    by rewrite (get_prop_nullish _ _ _ Hnone).
Qed.

(** X3: a guard run on a request that carries no claim ([req.user]
    [undefined] or [null], the verifier not having run) answers neither
    [next()] nor [next(error)]: it throws a [TypeError] on reading
    [role], and leaves the request as it was. *)
Theorem guards_without_claim_throw (roles : list string) (s : State) :
  nullish (user (req s)) = true →
  authorizeRoles roles s = (Throw (TypeError "role"), s)
  ∧ authorizeSubscribers s = (Throw (TypeError "role"), s)
  ∧ (∀ signal s', authorizeRoles roles s ≠ (Normal signal, s'))
  ∧ (∀ signal s', authorizeSubscribers s ≠ (Normal signal, s')).
Proof.
  intros Hnone. destruct (guards_no_claim roles s Hnone) as [Hroles Hsubscribers].
  rewrite Hroles, Hsubscribers. by split_and!.
Qed.

(** X4: listing more roles never refuses a claim that passed: if
    every role of [roles] is in [roles'] and [authorizeRoles(...roles)]
    calls [next()], so does [authorizeRoles(...roles')].  In particular
    the decision does not depend on the order of the roles or on
    repetitions, and with no role listed every claim is refused. *)
Theorem authorizeRoles_monotone (roles roles' : list string) (s : State) :
  roles ⊆ roles' →
  ((authorizeRoles roles s).1 = Normal (Next None) →
   (authorizeRoles roles' s).1 = Normal (Next None))
  ∧ (authorizeRoles [] s).1 ≠ Normal (Next None).
Proof.
  intros Hsub.
  destruct (nullish (user (req s))) eqn:Hclaim.
  - destruct (guards_no_claim roles s Hclaim) as [-> _].
    destruct (guards_no_claim [] s Hclaim) as [-> _].
    split; discriminate.
  - rewrite !authorizeRoles_run by done. simpl. split; [|discriminate].
    destruct (includes roles _) eqn:Hin; [|discriminate]. intros _.
    apply includes_spec in Hin as (r & Hrole & Hr).
    assert (includes roles' (prop (user (req s)) "role") = true) as ->; [|done].
    apply includes_spec. exists r. split; [done|]. by apply Hsub.
Qed.

(** X5: a claim admitted by [authorizeRoles("ADMIN")] is admitted by
    [authorizeSubscribers]: a route open to administrators only is never
    closed to them by the subscription guard. *)
Theorem admin_route_implies_subscriber_route (s : State) :
  (authorizeRoles ["ADMIN"] s).1 = Normal (Next None) →
  (authorizeSubscribers s).1 = Normal (Next None).
Proof.
  destruct (nullish (user (req s))) eqn:Hclaim.
  - destruct (guards_no_claim ["ADMIN"] s Hclaim) as [-> _]. discriminate.
  - rewrite authorizeRoles_run by done. cbn [fst].
    destruct (includes ["ADMIN"] _) eqn:Hin; [|discriminate]. intros _.
    apply includes_spec in Hin as (r & Hrole & Hr).
    apply list_elem_of_singleton in Hr as ->.
    by rewrite authorizeSubscribers_admin.
Qed.

(** X6: the guards only read: whatever they answer, pass, 403 or an
    exception, [req.cookies] and [req.user] are as before, and the
    properties read so far are still recorded. *)
Theorem guards_leave_request (roles : list string) (s : State) :
  req (authorizeRoles roles s).2 = req s
  ∧ req (authorizeSubscribers s).2 = req s
  ∧ reads s `prefix_of` reads (authorizeRoles roles s).2
  ∧ reads s `prefix_of` reads (authorizeSubscribers s).2.
Proof.
  destruct (nullish (user (req s))) eqn:Hclaim.
  - destruct (guards_no_claim roles s Hclaim) as [-> ->]. done.
  - rewrite authorizeRoles_run by done. simpl.
    destruct (strict_eq_str (prop (user (req s)) "role") "ADMIN") eqn:Hrole.
    + apply strict_eq_str_spec in Hrole.
      rewrite authorizeSubscribers_admin by done. simpl.
      split_and!; try done; by apply prefix_app_r.
    + apply strict_eq_str_false in Hrole.
      destruct (nullish (prop (user (req s)) "subscription")) eqn:Hsub.
      * rewrite authorizeSubscribers_no_subscription by done. simpl.
        split_and!; try done; by apply prefix_app_r.
      * rewrite authorizeSubscribers_subscriber by done. simpl.
        split_and!; try done; by apply prefix_app_r.
Qed.

End Guards.

(** ** Further properties of the course controller *)

#[local] Arguments Courses.purge_and_fail : simpl never.

Ltac unfold_controller :=
  unfold Courses.createCourse, Courses.addLectureToCourseById,
    Courses.removeLectureFromCourse, Courses.updateCourseById,
    Courses.getLecturesByCourseId, Courses.deleteCourseById, Courses.getAllCourses,
    Courses.Course_create, Courses.Course_findById, Courses.Course_findByIdAndUpdate,
    Courses.Course_save, Courses.Course_remove, Courses.Course_find_all,
    Courses.cloudinary_upload, Courses.cloudinary_destroy,
    Courses.fs_rm, Courses.set_db, Courses.set_uploads, Courses.log_call,
    Courses.fail, try_catch, bind, ret, throw, get_state, modify in *.

Section CourseController.
Import Courses.
Variable env : Env.

Lemma new_course_id_free (w : World) : db w !! new_ObjectId (dom (db w)) = None.
Proof.
  apply not_elem_of_dom. by destruct (new_ObjectId_fresh (dom (db w))).
Qed.

(** X7: with the four fields present and accepted and no file
    attached, [createCourse] answers 201 with the new course, stored
    under an identifier no course had, with an empty thumbnail reference
    and no lecture; the staging directory is untouched and the asset host
    is not called. *)
Theorem createCourse_without_file (req : Request) (w : World) :
  let t := body_title (body req) in
  let d := body_description (body req) in
  let c := body_category (body req) in
  let cb := body_createdBy (body req) in
  let id := new_ObjectId (dom (db w)) in
  truthy t = true → truthy d = true → truthy c = true → truthy cb = true →
  schema_accepts env (draft t d c cb) = true →
  file req = None →
  createCourse env req w =
    (Normal (Respond 201 (mkResponse true "Course created successfully"
                            (CoursePayload id (draft t d c cb)))),
     mkWorld (<[id := draft t d c cb]> (db w)) (uploads w) (cloud w))
  ∧ db w !! id = None
  ∧ thumbnail (draft t d c cb) = no_asset
  ∧ lectures (draft t d c cb) = [].
Proof.
  intros t d c cb id Ht Hd Hc Hcb Hschema Hfile.
  split; [|split; [apply new_course_id_free|done]].
  unfold_controller. fold t d c cb. rewrite Ht, Hd, Hc, Hcb. simpl.
  rewrite Hschema, Hfile. simpl. rewrite Hschema. simpl.
  by rewrite insert_insert_eq.
Qed.

(** X8: with the four fields present and accepted, a file attached
    and its upload returning, [createCourse] answers 201 with the course
    whose thumbnail is the returned asset reference (empty when the
    upload returned nothing); the asset host has received one upload of
    the file's path into the folder "lms", and of the staged files only
    the uploaded one is removed. *)
Theorem createCourse_with_file (req : Request) (w : World) (f : File)
    (result : option Asset) :
  let t := body_title (body req) in
  let d := body_description (body req) in
  let c := body_category (body req) in
  let cb := body_createdBy (body req) in
  let id := new_ObjectId (dom (db w)) in
  let options := mkUploadOptions "lms" None None in
  let course := mkCourse t d c cb (asset_of result) [] 0 in
  truthy t = true → truthy d = true → truthy c = true → truthy cb = true →
  schema_accepts env (draft t d c cb) = true →
  schema_accepts env course = true →
  file req = Some f →
  upload_outcome env (path f) options = UploadReturns result →
  createCourse env req w =
    (Normal (Respond 201 (mkResponse true "Course created successfully"
                            (CoursePayload id course))),
     mkWorld (<[id := course]> (db w)) (uploads w ∖ {[filename f]})
       (cloud w ++ [Upload (path f) options])).
Proof.
  intros t d c cb id options course Ht Hd Hc Hcb Hdraft Hcourse Hfile Hupload.
  unfold_controller. fold t d c cb. rewrite Ht, Hd, Hc, Hcb. simpl.
  rewrite Hdraft, Hfile. simpl. fold options. rewrite Hupload. simpl.
  assert (match result with
          | Some r => mkCourse t d c cb (mkAsset (public_id r) (secure_url r)) [] 0
          | None => draft t d c cb
          end = course) as -> by by destruct result.
  rewrite Hcourse. simpl. by rewrite insert_insert_eq.
Qed.

(** X9: whatever [createCourse] answers, 201, 400 or an exception,
    every course that was stored is stored unchanged afterwards, and at
    most one identifier is added to the collection. *)
Theorem createCourse_keeps_existing (req : Request) (w w' : World)
    (out : Completion (Signal Response)) :
  createCourse env req w = (out, w') →
  (∀ i course, db w !! i = Some course → db w' !! i = Some course)
  ∧ dom (db w') ⊆ dom (db w) ∪ {[ new_ObjectId (dom (db w)) ]}.
Proof.
  intros Hrun.
  pose proof (new_course_id_free w) as Hfree.
  assert (db w' = db w
          ∨ (∃ x, db w' = <[new_ObjectId (dom (db w)) := x]> (db w))
          ∨ (∃ x y, db w' = <[new_ObjectId (dom (db w)) := x]>
                              (<[new_ObjectId (dom (db w)) := y]> (db w))) →
          (∀ i course, db w !! i = Some course → db w' !! i = Some course)
          ∧ dom (db w') ⊆ dom (db w) ∪ {[ new_ObjectId (dom (db w)) ]}) as Hcases.
  { intros [-> | [[x ->] | (x & y & ->)]].
    - split; [done|set_solver].
    - split; [|rewrite dom_insert; set_solver].
      intros i course Hi. rewrite lookup_insert_ne; [done|]. intros <-. congruence.
    - split; [|rewrite !dom_insert; set_solver].
      intros i course Hi. rewrite !lookup_insert_ne; [done|..]; intros <-; congruence. }
  unfold_controller.
  repeat (first [rewrite purge_and_fail_run in * | case_match]; simplify_eq/=);
    apply Hcases; eauto.
Qed.

(** Looking a course up changes nothing. *)
Lemma findById_unknown (id : option string) (w : World) :
  (i ← id; db w !! i) = None →
  Course_findById id w = (Normal None, w).
Proof.
  intros Hnone. unfold Course_findById, bind, get_state, ret. simpl.
  destruct id as [i|]; simpl in *; [|done]. by rewrite Hnone.
Qed.

Lemma findById_known (i : string) (course : Course) (w : World) :
  db w !! i = Some course →
  Course_findById (Some i) w = (Normal (Some (i, course)), w).
Proof.
  intros Hsome. unfold Course_findById, bind, get_state, ret. simpl.
  by rewrite Hsome.
Qed.

(** X10: [addLectureToCourseById] answers 400 and changes nothing,
    neither the collection nor the staging directory, and calls the
    asset host not at all, when the title or the description is missing
    or empty, or when the id resolves to no course; an attached file then
    stays staged. *)
Theorem addLecture_refused (req : Request) (w : World) :
  truthy (body_title (body req)) = false
  ∨ truthy (body_description (body req)) = false
  ∨ (i ← params req !! "id"; db w !! i) = None →
  ∃ msg, addLectureToCourseById env req w = (Normal (Next (Some (mkApiError msg 400))), w).
Proof.
  intros Hrefused. unfold addLectureToCourseById.
  destruct (truthy (body_title (body req))) eqn:Ht;
    [|eexists; reflexivity].
  destruct (truthy (body_description (body req))) eqn:Hd;
    [|eexists; reflexivity].
  destruct Hrefused as [?|[?|Hunknown]]; [done..|]. simpl.
  unfold bind at 1. rewrite (findById_unknown _ _ Hunknown).
  eexists; reflexivity.
Qed.

(** X11: when the upload of a lecture's file fails,
    [addLectureToCourseById] answers 400, has asked the asset host for
    one video upload (folder "lms", chunk size 50000000), leaves the
    collection as it was, so the lecture is not added, and leaves the
    staging directory empty. *)
Theorem addLecture_upload_fails (req : Request) (w : World) (i : string)
    (course : Course) (f : File) (json : string) :
  let options := mkUploadOptions "lms" (Some 50000000) (Some "video") in
  truthy (body_title (body req)) = true →
  truthy (body_description (body req)) = true →
  params req !! "id" = Some i →
  db w !! i = Some course →
  file req = Some f →
  upload_outcome env (path f) options = UploadThrows json →
  ∃ error,
    addLectureToCourseById env req w =
      (Normal (Next (Some error)),
       mkWorld (db w) ∅ (cloud w ++ [Upload (path f) options]))
    ∧ statusCode error = 400.
Proof.
  intros options Ht Hd Hid Hcourse Hfile Hupload.
  unfold addLectureToCourseById. rewrite Ht, Hd, Hid. simpl.
  unfold bind at 1. rewrite (findById_known _ _ _ Hcourse).
  rewrite Hfile. unfold_controller. fold options. rewrite Hupload.
  rewrite purge_and_fail_run. simpl. eexists. split; reflexivity.
Qed.

Lemma addLecture_success_full (req : Request) (w w' : World) (status : Z) (r : Response) :
  addLectureToCourseById env req w = (Normal (Respond status r), w') →
  ∃ i course data,
    params req !! "id" = Some i
    ∧ db w !! i = Some course
    ∧ r = mkResponse true "Course lecture added successfully"
            (CoursePayload i (lecture_added course (body_title (body req))
                                (body_description (body req)) data))
    ∧ db w' = <[i := lecture_added course (body_title (body req))
                       (body_description (body req)) data]> (db w)
    ∧ (file req = None → data = no_asset ∧ uploads w' = uploads w ∧ cloud w' = cloud w)
    ∧ (∀ f, file req = Some f →
       ∃ result,
         upload_outcome env (path f)
           (mkUploadOptions "lms" (Some 50000000) (Some "video")) = UploadReturns result
         ∧ data = asset_of result
         ∧ uploads w' = uploads w ∖ {[filename f]}
         ∧ cloud w' = cloud w ++ [Upload (path f)
                        (mkUploadOptions "lms" (Some 50000000) (Some "video"))]).
Proof.
  intros Hrun. unfold_controller.
  destruct (truthy (body_title (body req))) eqn:Ht; [|by simplify_eq/=].
  destruct (truthy (body_description (body req))) eqn:Hd; [|by simplify_eq/=].
  simpl in Hrun.
  destruct (params req !! "id") as [i|] eqn:Hid; [|by simplify_eq/=].
  simpl in Hrun.
  destruct (db w !! i) as [course|] eqn:Hcourse; [|by simplify_eq/=].
  simpl in Hrun.
  repeat (first [rewrite purge_and_fail_run in * | case_match]; simplify_eq/=).
  - eexists i, course, _. split_and!; try done.
    intros f' [= <-]. eexists. by split_and!.
  - eexists i, course, _. split_and!; try done.
    intros f' [= <-]. eexists. by split_and!.
  - eexists i, course, _. split_and!; try done.
Qed.

(** X12: a successful [addLectureToCourseById] appends one lecture,
    with the title and description of the body and an identifier that is
    not empty and that no lecture of the course had, to the end of the
    course's lecture list; the earlier lectures, the other fields of the
    course and every other course are as before, the response carries the
    course as stored, and lecture identifiers that were pairwise distinct
    stay so. *)
Theorem addLecture_appends (req : Request) (w w' : World) (status : Z) (r : Response) :
  addLectureToCourseById env req w = (Normal (Respond status r), w') →
  ∃ i course course' new,
    params req !! "id" = Some i
    ∧ db w !! i = Some course
    ∧ db w' !! i = Some course'
    ∧ payload r = CoursePayload i course'
    ∧ lectures course' = lectures course ++ [new]
    ∧ lecture_title new = body_title (body req)
    ∧ lecture_description new = body_description (body req)
    ∧ lecture_id new ≠ ""
    ∧ (lecture_id new ∉ lecture_id <$> lectures course)
    ∧ (unique_lecture_ids course → unique_lecture_ids course')
    ∧ (title course', description course', category course', createdBy course',
       thumbnail course')
      = (title course, description course, category course, createdBy course,
         thumbnail course)
    ∧ (∀ j, j ≠ i → db w' !! j = db w !! j).
Proof.
  intros Hrun.
  apply addLecture_success_full in Hrun
    as (i & course & data & Hid & Hcourse & -> & Hdb & _).
  destruct (new_ObjectId_fresh (list_to_set (lecture_id <$> lectures course)))
    as [Hne Hfresh].
  rewrite elem_of_list_to_set in Hfresh.
  eexists i, course, _, _. split_and!; try done.
  - rewrite Hdb. apply lookup_insert_eq.
  - unfold unique_lecture_ids. simpl. unfold push. rewrite fmap_app. simpl.
    intros Hunique. apply NoDup_app. split_and!; [done| |apply NoDup_singleton].
    intros x Hx Hx'. apply list_elem_of_singleton in Hx' as ->. done.
  - intros j Hj. rewrite Hdb. by apply lookup_insert_ne.
Qed.

(** X13: [removeLectureFromCourse] changes nothing and calls the
    asset host not at all when it refuses: with 400 when the course id
    is missing or empty (checked first), with 400 when the lecture id is,
    with 404 when the course id resolves to no course. *)
Theorem removeLecture_refused (req : Request) (w : World) :
  let courseId := query req !! "courseId" in
  let lectureId := query req !! "lectureId" in
  (truthy (of_param courseId) = false →
   removeLectureFromCourse env req w =
     (Normal (Next (Some (mkApiError "Course ID is required" 400))), w))
  ∧ (truthy (of_param courseId) = true → truthy (of_param lectureId) = false →
     removeLectureFromCourse env req w =
       (Normal (Next (Some (mkApiError "Lecture ID is required" 400))), w))
  ∧ (truthy (of_param courseId) = true → truthy (of_param lectureId) = true →
     (i ← courseId; db w !! i) = None →
     removeLectureFromCourse env req w =
       (Normal (Next (Some (mkApiError "Invalid ID or Course does not exist." 404))), w)).
Proof.
  intros courseId lectureId. unfold removeLectureFromCourse.
  fold courseId lectureId. split_and!.
  - by intros ->.
  - by intros -> ->.
  - intros -> -> Hunknown. simpl. unfold bind at 1.
    by rewrite (findById_unknown _ _ Hunknown).
Qed.

(** The first element satisfying [p] splits the list: nothing before it
    satisfies [p], and splicing at its index removes it alone. *)
Lemma findIndex_split {A} (p : A → bool) (ls : list A) :
  findIndex p ls ≠ -1 →
  ∃ before x after,
    ls = before ++ x :: after
    ∧ (∀ y, y ∈ before → p y = false)
    ∧ p x = true
    ∧ findIndex p ls = Z.of_nat (length before)
    ∧ splice1 (findIndex p ls) ls = before ++ after.
Proof.
  induction ls as [|y ls IH]; simpl; [done|].
  destruct (p y) eqn:Hy.
  - intros _. exists [], y, ls. split_and!; try done.
    intros z Hz. by apply elem_of_nil in Hz.
  - pose proof (findIndex_bounds p ls) as Hbounds.
    destruct (Z.eqb_spec (findIndex p ls) (-1)) as [|Hfound]; [done|]. intros _.
    destruct (IH Hfound) as (before & x & after & -> & Hbefore & Hx & Hindex & Hsplice).
    exists (y :: before), x, after. split_and!; try done.
    + intros z Hz. apply elem_of_cons in Hz as [->|Hz]; [done|by apply Hbefore].
    + rewrite Hindex. simpl. lia.
    + rewrite Hindex in Hsplice |- *. unfold splice1 in *.
      rewrite Nat2Z.id in Hsplice.
      replace (Z.to_nat (Z.of_nat (length before) + 1)) with (S (length before)) by lia.
      simpl. by rewrite Hsplice.
Qed.

(** X14: a successful [removeLectureFromCourse] removes the first
    lecture of the course with the requested id and no other: the
    lectures before and after it keep their order, the count is one less,
    the other fields of the course, every other course and the staging
    directory are as before.  When the lecture ids of the course were
    pairwise distinct, no lecture with the requested id remains and the
    ids stay pairwise distinct. *)
Theorem removeLecture_removes_first (req : Request) (w w' : World)
    (status : Z) (r : Response) :
  removeLectureFromCourse env req w = (Normal (Respond status r), w') →
  ∃ i lectureId course course' before located after,
    query req !! "courseId" = Some i
    ∧ query req !! "lectureId" = Some lectureId
    ∧ db w !! i = Some course
    ∧ lectures course = before ++ located :: after
    ∧ (∀ l, l ∈ before → lecture_id l ≠ lectureId)
    ∧ lecture_id located = lectureId
    ∧ db w' !! i = Some course'
    ∧ lectures course' = before ++ after
    ∧ numberOfLectures course' = Z.of_nat (length (lectures course)) - 1
    ∧ (title course', description course', category course', createdBy course',
       thumbnail course')
      = (title course, description course, category course, createdBy course,
         thumbnail course)
    ∧ (∀ j, j ≠ i → db w' !! j = db w !! j)
    ∧ uploads w' = uploads w
    ∧ (unique_lecture_ids course →
       unique_lecture_ids course'
       ∧ ∀ l, l ∈ lectures course' → lecture_id l ≠ lectureId).
Proof.
  intros Hrun.
  apply removeLecture_success in Hrun
    as (i & lectureId & course & located & Hcid & Hlid & Hcourse & Hindex
        & Hlocated & _ & -> & _).
  destruct (findIndex_split _ _ Hindex)
    as (before & x & after & Hlectures & Hbefore & Hx & Hk & Hsplice).
  assert (x = located) as ->.
  { rewrite Hk, Nat2Z.id, Hlectures in Hlocated.
    rewrite lookup_app_r, Nat.sub_diag in Hlocated by lia. by injection Hlocated. }
  apply String.eqb_eq in Hx.
  exists i, lectureId, course, (lecture_removed course
    (findIndex (has_id lectureId) (lectures course))), before, located, after.
  split_and!; try done.
  - intros l Hl. apply String.eqb_neq. by apply Hbefore.
  - simpl. apply lookup_insert_eq.
  - simpl. rewrite Hsplice, Hlectures, !length_app. simpl. lia.
  - intros j Hj. simpl. by apply lookup_insert_ne.
  - unfold unique_lecture_ids. simpl. rewrite Hsplice, Hlectures.
    rewrite !fmap_app, fmap_cons, Hx. intros Hunique.
    apply NoDup_app in Hunique as (Hnb & Hdisjoint & Hrest).
    apply NoDup_cons in Hrest as [Hnotin Hna].
    split.
    + apply NoDup_app. split_and!; [done| |done].
      intros y Hy Hy'. apply (Hdisjoint y Hy). set_solver.
    + intros l Hl Hid. apply elem_of_app in Hl as [Hl|Hl].
      * apply (Hdisjoint lectureId); [|set_solver].
        rewrite <- Hid. by apply list_elem_of_fmap_2.
      * apply Hnotin. rewrite <- Hid. by apply list_elem_of_fmap_2.
Qed.

(** X15: [updateCourseById] changes nothing when it fails: a body
    the validators reject throws, whether or not the course exists, and
    an id that resolves to no course answers 400 (not 404). *)
Theorem updateCourse_refused (req : Request) (w : World) :
  (update_accepts env (body req) = false →
   updateCourseById env req w = (Throw ValidationError, w))
  ∧ (update_accepts env (body req) = true →
     (i ← params req !! "id"; db w !! i) = None →
     updateCourseById env req w =
       (Normal (Next (Some (mkApiError "Invalid course id or course not found." 400))), w)).
Proof.
  unfold updateCourseById, Course_findByIdAndUpdate. split.
  - by intros ->.
  - intros -> Hunknown. unfold bind at 1. unfold bind at 1.
    by rewrite (findById_unknown _ _ Hunknown).
Qed.

Lemma set_text_idempotent (new old : JsValue) :
  set_text new (set_text new old) = set_text new old.
Proof. by destruct new. Qed.

Lemma apply_set_idempotent (b : Body) (course : Course) :
  apply_set b (apply_set b course) = apply_set b course.
Proof.
  unfold apply_set. simpl. rewrite !set_text_idempotent.
  by destruct (body_thumbnail b), (body_lectures b), (body_numberOfLectures b).
Qed.

(** X16: a successful [updateCourseById] replaces the course under
    the given id and nothing else: the set of stored ids, every other
    course, the staging directory and the calls to the asset host are as
    before, and the paths the body does not have keep their values.
    Sending the same update again succeeds and changes nothing more. *)
Theorem updateCourse_idempotent (req : Request) (w w1 : World)
    (status : Z) (r : Response) :
  updateCourseById env req w = (Normal (Respond status r), w1) →
  updateCourseById env req w1 = (Normal (Respond status r), w1)
  ∧ dom (db w1) = dom (db w)
  ∧ uploads w1 = uploads w ∧ cloud w1 = cloud w
  ∧ ∃ i before after,
      params req !! "id" = Some i
      ∧ db w !! i = Some before ∧ db w1 !! i = Some after
      ∧ (∀ j, j ≠ i → db w1 !! j = db w !! j)
      ∧ (body_title (body req) = JUndefined → title after = title before)
      ∧ (body_description (body req) = JUndefined → description after = description before)
      ∧ (body_category (body req) = JUndefined → category after = category before)
      ∧ (body_createdBy (body req) = JUndefined → createdBy after = createdBy before)
      ∧ (body_thumbnail (body req) = None → thumbnail after = thumbnail before)
      ∧ (body_lectures (body req) = None → lectures after = lectures before)
      ∧ (body_numberOfLectures (body req) = None →
         numberOfLectures after = numberOfLectures before).
Proof.
  intros Hrun. unfold_controller.
  destruct (update_accepts env (body req)) eqn:Haccepts; [|by simplify_eq/=].
  destruct (params req !! "id") as [i|] eqn:Hid; [|by simplify_eq/=].
  simpl in *.
  destruct (db w !! i) as [before|] eqn:Hbefore; simplify_eq/=.
  rewrite lookup_insert_eq. simpl. rewrite apply_set_idempotent, insert_insert_eq.
  split_and!; try done.
  - rewrite dom_insert_L. apply elem_of_dom_2 in Hbefore. set_solver.
  - exists i, before, (apply_set (body req) before). split_and!; try done.
    + apply lookup_insert_eq.
    + intros j Hj. by apply lookup_insert_ne.
    + intros Heq. simpl. by rewrite Heq.
    + intros Heq. simpl. by rewrite Heq.
    + intros Heq. simpl. by rewrite Heq.
    + intros Heq. simpl. by rewrite Heq.
    + intros Heq. simpl. by rewrite Heq.
    + intros Heq. simpl. by rewrite Heq.
    + intros Heq. simpl. by rewrite Heq.
Qed.

(** X17: [getLecturesByCourseId] only reads: it leaves the world as
    it is, answers 200 with the lecture list of the course the id
    resolves to, in stored order, and 404 when the id resolves to none. *)
Theorem getLectures_reads (req : Request) (w : World) :
  (getLecturesByCourseId req w).2 = w
  ∧ (∀ i course, params req !! "id" = Some i → db w !! i = Some course →
     (getLecturesByCourseId req w).1 =
       Normal (Respond 200 (mkResponse true "Course lectures fetched successfully"
                              (LecturesPayload (lectures course)))))
  ∧ ((i ← params req !! "id"; db w !! i) = None →
     (getLecturesByCourseId req w).1 =
       Normal (Next (Some (mkApiError "Invalid course id or course not found." 404)))).
Proof.
  unfold getLecturesByCourseId. split_and!.
  - unfold_controller. simpl.
    destruct (params req !! "id") as [i|]; simpl; [|done].
    by destruct (db w !! i).
  - intros i course Hid Hcourse. rewrite Hid. unfold bind at 1.
    by rewrite (findById_known _ _ _ Hcourse).
  - intros Hunknown. unfold bind at 1.
    by rewrite (findById_unknown _ _ Hunknown).
Qed.

(** X18: what [addLectureToCourseById] has answered is what
    [getLecturesByCourseId] then returns: after a successful add, the
    lectures fetched for the same id are the lectures of the course in
    the add's response, the earlier ones followed by the new one. *)
Theorem getLectures_after_add (add get : Request) (w w1 : World)
    (status : Z) (r : Response) :
  addLectureToCourseById env add w = (Normal (Respond status r), w1) →
  params get !! "id" = params add !! "id" →
  ∃ i before course1 new,
    db w !! i = Some before
    ∧ payload r = CoursePayload i course1
    ∧ lectures course1 = lectures before ++ [new]
    ∧ getLecturesByCourseId get w1 =
        (Normal (Respond 200 (mkResponse true "Course lectures fetched successfully"
                                (LecturesPayload (lectures course1)))), w1).
Proof.
  intros Hadd Hsame.
  apply addLecture_success_full in Hadd
    as (i & before & data & Hid & Hbefore & -> & Hdb & _).
  eexists i, before, _, _. split_and!; [done|reflexivity|reflexivity|].
  unfold getLecturesByCourseId. rewrite Hsame, Hid. unfold bind at 1.
  rewrite (findById_known i (lecture_added before (body_title (body add))
                               (body_description (body add)) data)); [done|].
  rewrite Hdb. apply lookup_insert_eq.
Qed.

(** X19: [deleteCourseById] answers 404 and changes nothing when the
    id resolves to no course; otherwise it answers 200 and removes that
    course alone: every other course and the staging directory are as
    before, and the asset host is not called, so the assets of the
    course's lectures are left where they are. *)
Theorem deleteCourse_removes (req : Request) (w : World) :
  ((i ← params req !! "id"; db w !! i) = None →
   deleteCourseById req w =
     (Normal (Next (Some (mkApiError "Course with given id does not exist." 404))), w))
  ∧ (∀ i course, params req !! "id" = Some i → db w !! i = Some course →
     deleteCourseById req w =
       (Normal (Respond 200 (mkResponse true "Course deleted successfully" NoPayload)),
        mkWorld (delete i (db w)) (uploads w) (cloud w))
     ∧ delete i (db w) !! i = None
     ∧ ∀ j, j ≠ i → delete i (db w) !! j = db w !! j).
Proof.
  unfold deleteCourseById. split.
  - intros Hunknown. unfold bind at 1. by rewrite (findById_unknown _ _ Hunknown).
  - intros i course Hid Hcourse. rewrite Hid. unfold bind at 1.
    rewrite (findById_known _ _ _ Hcourse). split_and!.
    + done.
    + apply lookup_delete_eq.
    + intros j Hj. by apply lookup_delete_ne.
Qed.

(** X20: once [deleteCourseById] has succeeded, the course is gone
    for the other handlers: fetching its lectures answers 404, deleting
    it again answers 404, and adding a lecture to it answers 400. *)
Theorem deleted_course_is_gone (req other : Request) (w w1 : World)
    (status : Z) (r : Response) :
  deleteCourseById req w = (Normal (Respond status r), w1) →
  params other !! "id" = params req !! "id" →
  getLecturesByCourseId other w1 =
    (Normal (Next (Some (mkApiError "Invalid course id or course not found." 404))), w1)
  ∧ deleteCourseById other w1 =
      (Normal (Next (Some (mkApiError "Course with given id does not exist." 404))), w1)
  ∧ ∃ msg, addLectureToCourseById env other w1 =
             (Normal (Next (Some (mkApiError msg 400))), w1).
Proof.
  intros Hrun Hsame.
  assert ((i ← params other !! "id"; db w1 !! i) = None) as Hgone.
  { rewrite Hsame. unfold_controller.
    destruct (params req !! "id") as [i|] eqn:Hid; [|done]. simpl in *.
    destruct (db w !! i) as [course|] eqn:Hcourse; simplify_eq/=.
    apply lookup_delete_eq. }
  split_and!.
  - unfold getLecturesByCourseId. unfold bind at 1.
    by rewrite (findById_unknown _ _ Hgone).
  - unfold deleteCourseById. unfold bind at 1.
    by rewrite (findById_unknown _ _ Hgone).
  - unfold addLectureToCourseById.
    destruct (truthy (body_title (body other))); [|eexists; reflexivity].
    destruct (truthy (body_description (body other))); [|eexists; reflexivity].
    simpl. unfold bind at 1. rewrite (findById_unknown _ _ Hgone).
    eexists; reflexivity.
Qed.

End CourseController.

(** ** Contact form and usage statistics *)

Section Miscellaneous.
Import Misc.
Variable env : Env.

(** X22: when [name], [email] or [message] is missing or empty,
    [contactUs] sends no email and calls [next] with an error built
    without a status code, unlike the 400 of the other handlers. *)
Theorem contactUs_requires_fields (req : Request) (w : World) :
  truthy (default JUndefined (body req !! "name")) = false
  ∨ truthy (default JUndefined (body req !! "email")) = false
  ∨ truthy (default JUndefined (body req !! "message")) = false →
  contactUs env req w =
    (Normal (NextWith (mkErrorArgs "Name, Email, Message are required" None)), w).
Proof.
  intros Hfalsy. unfold contactUs.
  assert (negb (truthy (default JUndefined (body req !! "name")))
          || negb (truthy (default JUndefined (body req !! "email")))
          || negb (truthy (default JUndefined (body req !! "message"))) = true) as ->;
    [|done].
  destruct Hfalsy as [-> | [-> | ->]]; simpl; rewrite ?orb_true_r; done.
Qed.

Lemma to_string_throws (v : JsValue) :
  to_string env v = None ↔ ∃ props, v = JObj props ∧ is_Some (props !! "toString").
Proof.
  destruct v as [| | | | |props]; simpl; try (split; [done|by intros (? & ? & ?)]).
  destruct (props !! "toString") as [own|] eqn:Hown.
  - split; [|done]. intros _. exists props. by rewrite Hown.
  - split; [done|]. intros (props' & [= <-] & Hsome).
    rewrite Hown in Hsome. by destruct Hsome.
Qed.

(** X23: with the three fields present and each one printable by the
    template literal, [contactUs] calls the mail helper exactly once,
    for the configured contact address, with the subject "Contact Us
    Form" and the text "name - email <br /> message" (the fields as they
    are when they are strings); it answers 200 when the helper returns,
    and calls [next] with the helper's error message and status 400 when
    it throws.  When a field is an object with a [toString] property of
    its own, the literal throws inside the [try]: no email is sent and
    [next] is called with the [TypeError]'s message and status 400.  The
    User collection is not touched. *)
Theorem contactUs_sends_once (req : Request) (w : World) :
  let name := default JUndefined (body req !! "name") in
  let email := default JUndefined (body req !! "email") in
  let message := default JUndefined (body req !! "message") in
  truthy name = true → truthy email = true → truthy message = true →
  (∀ n e m,
     to_string env name = Some n → to_string env email = Some e →
     to_string env message = Some m →
     let mail :=
       mkEmail (CONTACT_US_EMAIL env) "Contact Us Form"
         (n +:+ " - " +:+ e +:+ " <br /> " +:+ m) in
     contactUs env req w =
       (Normal
          match send_outcome env mail with
          | Some error => NextWith (mkErrorArgs error (Some 400))
          | None =>
              Json 200 (mkResponse true "Your request has been submitted successfully"
                          NoStats)
          end,
        mkWorld (outbox w ++ [mail]) (users w)))
  ∧ (∀ n e m, name = JStr n → email = JStr e → message = JStr m →
     to_string env name = Some n ∧ to_string env email = Some e
     ∧ to_string env message = Some m)
  ∧ ((∃ field props,
        (field = name ∨ field = email ∨ field = message)
        ∧ field = JObj props ∧ is_Some (props !! "toString")) →
     contactUs env req w =
       (Normal (NextWith (mkErrorArgs "Cannot convert object to primitive value"
                            (Some 400))), w)).
Proof.
  intros name email message Hname Hemail Hmessage.
  unfold contactUs. fold name email message. rewrite Hname, Hemail, Hmessage. simpl.
  unfold textMessage_of. split_and!.
  - intros n e m -> -> ->. simpl.
    unfold bind, sendEmail, bind, modify, ret. simpl.
    by destruct (send_outcome env _).
  - by intros n e m -> -> ->.
  - intros (field & props & Hfield & Hobject & Hown).
    assert (to_string env field = None) as Hthrows.
    { apply to_string_throws. by exists props. }
    destruct Hfield as [-> | [-> | ->]].
    + by rewrite Hthrows.
    + rewrite Hthrows. by destruct (to_string env name).
    + rewrite Hthrows. by destruct (to_string env name), (to_string env email).
Qed.

End Miscellaneous.


Section FurtherWitnesses.
Import Samples.

Lemma isLoggedIn_pass_only_if_verified_witness :
  ∃ tok decoded,
    Auth.cookies (Auth.req arriving) !! "token" = Some tok ∧ tok ≠ ""
    ∧ Auth.jwt_verify jwt tok (Auth.JWT_SECRET jwt) = Auth.VerifyReturns decoded
    ∧ truthy decoded = true
    ∧ verified subscriber =
        Auth.mkState (Auth.mkRequest (Auth.cookies (Auth.req arriving)) decoded)
          (Auth.reads arriving).
Proof.
  apply (isLoggedIn_pass_only_if_verified jwt arriving (verified subscriber)
           (Normal (Next None)) eq_refl).
  reflexivity.
Defined.

Lemma authorizeRoles_after_isLoggedIn_witness :
  ∃ signal,
    Auth.authorizeRoles ["ADMIN"] (verified subscriber) =
      (Normal signal, after_reading (verified subscriber) ["role"])
    ∧ (signal = Next None ∨ signal = Next (Some Forbidden_role)).
Proof.
  exact (authorizeRoles_after_isLoggedIn jwt ["ADMIN"] arriving (verified subscriber)
           eq_refl).
Defined.

Lemma guards_without_claim_throw_witness :
  Auth.authorizeRoles ["ADMIN"] arriving = (Throw (TypeError "role"), arriving)
  ∧ Auth.authorizeSubscribers arriving = (Throw (TypeError "role"), arriving)
  ∧ (∀ signal s', Auth.authorizeRoles ["ADMIN"] arriving ≠ (Normal signal, s'))
  ∧ (∀ signal s', Auth.authorizeSubscribers arriving ≠ (Normal signal, s')).
Proof.
  exact (guards_without_claim_throw ["ADMIN"] arriving eq_refl).
Defined.

Lemma authorizeRoles_monotone_witness :
  (Auth.authorizeRoles ["USER"; "ADMIN"] (verified administrator)).1 = Normal (Next None).
Proof.
  assert (["ADMIN"] ⊆ ["USER"; "ADMIN"]) as Hsub.
  { intros r Hr. apply list_elem_of_singleton in Hr as ->.
    apply list_elem_of_further, list_elem_of_here. }
  apply (authorizeRoles_monotone ["ADMIN"] ["USER"; "ADMIN"] (verified administrator) Hsub).
  reflexivity.
Defined.

Lemma admin_route_implies_subscriber_route_witness :
  (Auth.authorizeSubscribers (verified administrator)).1 = Normal (Next None).
Proof.
  apply (admin_route_implies_subscriber_route (verified administrator)).
  reflexivity.
Defined.

End FurtherWitnesses.

Section FurtherCourseWitnesses.
Import Courses CourseSamples.

Lemma createCourse_without_file_witness :
  createCourse cooperative create_without_file staging =
    (Normal (Respond 201 (mkResponse true "Course created successfully"
                            (CoursePayload "0" algebra))),
     mkWorld (<["0" := algebra]> ∅) {[ "a.png"; "b.png" ]} [])
  ∧ db staging !! "0" = None
  ∧ thumbnail algebra = no_asset
  ∧ lectures algebra = [].
Proof.
  exact (createCourse_without_file cooperative create_without_file staging
           eq_refl eq_refl eq_refl eq_refl eq_refl eq_refl).
Defined.

Lemma createCourse_with_file_witness :
  createCourse cooperative create_with_file staging =
    (Normal (Respond 201
               (mkResponse true "Course created successfully"
                  (CoursePayload "0"
                     (mkCourse (JStr "Algebra") (JStr "Intro") (JStr "Math") (JStr "u1")
                        returned [] 0)))),
     mkWorld (<["0" := mkCourse (JStr "Algebra") (JStr "Intro") (JStr "Math") (JStr "u1")
                         returned [] 0]> ∅)
       ({[ "a.png"; "b.png" ]} ∖ {[ "a.png" ]})
       [Upload "uploads/a.png" (mkUploadOptions "lms" None None)]).
Proof.
  exact (createCourse_with_file cooperative create_with_file staging
           (mkFile "uploads/a.png" "a.png") (Some returned)
           eq_refl eq_refl eq_refl eq_refl eq_refl eq_refl eq_refl eq_refl).
Defined.

Lemma createCourse_keeps_existing_witness :
  db (createCourse failing_uploads create_with_file staged_teaching).2 !! "c1" = Some taught.
Proof.
  apply (createCourse_keeps_existing failing_uploads create_with_file staged_teaching
           (createCourse failing_uploads create_with_file staged_teaching).2
           (createCourse failing_uploads create_with_file staged_teaching).1).
  - reflexivity.
  - reflexivity.
Defined.

Lemma addLecture_refused_witness :
  ∃ msg, addLectureToCourseById cooperative add_lecture staging =
           (Normal (Next (Some (mkApiError msg 400))), staging).
Proof.
  apply (addLecture_refused cooperative add_lecture staging).
  right. right. reflexivity.
Defined.

Lemma addLecture_upload_fails_witness :
  ∃ error,
    addLectureToCourseById failing_uploads add_with_file staged_teaching =
      (Normal (Next (Some error)),
       mkWorld (db staged_teaching) ∅
         (cloud staged_teaching ++
          [Upload "uploads/b.png" (mkUploadOptions "lms" (Some 50000000) (Some "video"))]))
    ∧ statusCode error = 400.
Proof.
  exact (addLecture_upload_fails failing_uploads add_with_file staged_teaching "c1" taught
           (mkFile "uploads/b.png" "b.png") "{}"
           eq_refl eq_refl eq_refl eq_refl eq_refl eq_refl).
Defined.

Lemma addLecture_appends_witness :
  ∃ i course course' new,
    params add_lecture !! "id" = Some i
    ∧ db stored !! i = Some course
    ∧ db after_add !! i = Some course'
    ∧ payload added = CoursePayload i course'
    ∧ lectures course' = lectures course ++ [new]
    ∧ lecture_title new = body_title (body add_lecture)
    ∧ lecture_description new = body_description (body add_lecture)
    ∧ lecture_id new ≠ ""
    ∧ (lecture_id new ∉ lecture_id <$> lectures course)
    ∧ (unique_lecture_ids course → unique_lecture_ids course')
    ∧ (title course', description course', category course', createdBy course',
       thumbnail course')
      = (title course, description course, category course, createdBy course,
         thumbnail course)
    ∧ (∀ j, j ≠ i → db after_add !! j = db stored !! j).
Proof.
  exact (addLecture_appends cooperative add_lecture stored after_add 200 added eq_refl).
Defined.

Lemma removeLecture_refused_witness :
  removeLectureFromCourse cooperative create_without_file teaching =
    (Normal (Next (Some (mkApiError "Course ID is required" 400))), teaching)
  ∧ removeLectureFromCourse cooperative remove_without_lecture teaching =
      (Normal (Next (Some (mkApiError "Lecture ID is required" 400))), teaching)
  ∧ removeLectureFromCourse cooperative (remove_lecture "l1") staging =
      (Normal (Next (Some (mkApiError "Invalid ID or Course does not exist." 404))), staging).
Proof.
  split_and!.
  - apply (removeLecture_refused cooperative create_without_file teaching). reflexivity.
  - apply (removeLecture_refused cooperative remove_without_lecture teaching);
      reflexivity.
  - apply (removeLecture_refused cooperative (remove_lecture "l1") staging);
      reflexivity.
Defined.

Lemma removeLecture_removes_first_witness :
  ∃ i lectureId course course' before located after,
    query (remove_lecture "l1") !! "courseId" = Some i
    ∧ query (remove_lecture "l1") !! "lectureId" = Some lectureId
    ∧ db teaching !! i = Some course
    ∧ lectures course = before ++ located :: after
    ∧ (∀ l, l ∈ before → lecture_id l ≠ lectureId)
    ∧ lecture_id located = lectureId
    ∧ db after_remove !! i = Some course'
    ∧ lectures course' = before ++ after
    ∧ numberOfLectures course' = Z.of_nat (length (lectures course)) - 1
    ∧ (title course', description course', category course', createdBy course',
       thumbnail course')
      = (title course, description course, category course, createdBy course,
         thumbnail course)
    ∧ (∀ j, j ≠ i → db after_remove !! j = db teaching !! j)
    ∧ uploads after_remove = uploads teaching
    ∧ (unique_lecture_ids course →
       unique_lecture_ids course'
       ∧ ∀ l, l ∈ lectures course' → lecture_id l ≠ lectureId).
Proof.
  exact (removeLecture_removes_first cooperative (remove_lecture "l1") teaching
           after_remove 200 removed eq_refl).
Defined.

Lemma updateCourse_refused_witness :
  updateCourseById strict set_title teaching = (Throw ValidationError, teaching)
  ∧ updateCourseById cooperative set_title staging =
      (Normal (Next (Some (mkApiError "Invalid course id or course not found." 400))),
       staging).
Proof.
  split.
  - apply (updateCourse_refused strict set_title teaching). reflexivity.
  - apply (updateCourse_refused cooperative set_title staging); reflexivity.
Defined.

Lemma updateCourse_idempotent_witness :
  updateCourseById cooperative set_title retitled = (Normal (Respond 200 updated), retitled)
  ∧ dom (db retitled) = dom (db teaching).
Proof.
  destruct (updateCourse_idempotent cooperative set_title teaching retitled 200 updated
              eq_refl) as (Hagain & Hdom & _).
  by split.
Defined.

Lemma getLectures_reads_witness :
  (getLecturesByCourseId by_id teaching).1 =
    Normal (Respond 200 (mkResponse true "Course lectures fetched successfully"
                           (LecturesPayload (lectures taught))))
  ∧ (getLecturesByCourseId by_id staging).1 =
      Normal (Next (Some (mkApiError "Invalid course id or course not found." 404))).
Proof.
  split.
  - apply (proj1 (proj2 (getLectures_reads by_id teaching)) "c1" taught); reflexivity.
  - apply (getLectures_reads by_id staging). reflexivity.
Defined.

Lemma getLectures_after_add_witness :
  ∃ i before course1 new,
    db stored !! i = Some before
    ∧ payload added = CoursePayload i course1
    ∧ lectures course1 = lectures before ++ [new]
    ∧ getLecturesByCourseId by_id after_add =
        (Normal (Respond 200 (mkResponse true "Course lectures fetched successfully"
                                (LecturesPayload (lectures course1)))), after_add).
Proof.
  exact (getLectures_after_add cooperative add_lecture by_id stored after_add 200 added
           eq_refl eq_refl).
Defined.

Lemma deleteCourse_removes_witness :
  deleteCourseById by_id staging =
    (Normal (Next (Some (mkApiError "Course with given id does not exist." 404))), staging)
  ∧ deleteCourseById by_id teaching =
      (Normal (Respond 200 deleted),
       mkWorld (delete "c1" (db teaching)) (uploads teaching) (cloud teaching)).
Proof.
  split.
  - apply (deleteCourse_removes by_id staging). reflexivity.
  - apply (proj2 (deleteCourse_removes by_id teaching) "c1" taught); reflexivity.
Defined.

Lemma deleted_course_is_gone_witness :
  getLecturesByCourseId by_id (mkWorld ∅ ∅ []) =
    (Normal (Next (Some (mkApiError "Invalid course id or course not found." 404))),
     mkWorld ∅ ∅ [])
  ∧ deleteCourseById by_id (mkWorld ∅ ∅ []) =
      (Normal (Next (Some (mkApiError "Course with given id does not exist." 404))),
       mkWorld ∅ ∅ [])
  ∧ ∃ msg, addLectureToCourseById cooperative by_id (mkWorld ∅ ∅ []) =
             (Normal (Next (Some (mkApiError msg 400))), mkWorld ∅ ∅ []).
Proof.
  exact (deleted_course_is_gone cooperative by_id by_id teaching (mkWorld ∅ ∅ [])
           200 deleted eq_refl eq_refl).
Defined.

End FurtherCourseWitnesses.

Section MiscWitnesses.
Import Misc MiscSamples.

Lemma contactUs_requires_fields_witness :
  contactUs delivering enquiry_without_message quiet =
    (Normal (NextWith (mkErrorArgs "Name, Email, Message are required" None)), quiet).
Proof.
  apply (contactUs_requires_fields delivering enquiry_without_message quiet).
  right. right. reflexivity.
Defined.

Lemma contactUs_sends_once_witness :
  contactUs down enquiry quiet =
    (Normal (NextWith (mkErrorArgs "connection refused" (Some 400))),
     mkWorld [mkEmail (JStr "support@lms.test") "Contact Us Form"
                "Ada - ada@lms.test <br /> Hello"] [])
  ∧ contactUs delivering enquiry quiet =
      (Normal (Json 200 (mkResponse true "Your request has been submitted successfully"
                           NoStats)),
       mkWorld [mkEmail (JStr "support@lms.test") "Contact Us Form"
                  "Ada - ada@lms.test <br /> Hello"] [])
  ∧ contactUs delivering enquiry_by_object quiet =
      (Normal (NextWith (mkErrorArgs "Cannot convert object to primitive value"
                           (Some 400))), quiet).
Proof.
  split_and!.
  - exact (proj1 (contactUs_sends_once down enquiry quiet eq_refl eq_refl eq_refl)
             "Ada" "ada@lms.test" "Hello" eq_refl eq_refl eq_refl).
  - exact (proj1 (contactUs_sends_once delivering enquiry quiet eq_refl eq_refl eq_refl)
             "Ada" "ada@lms.test" "Hello" eq_refl eq_refl eq_refl).
  - apply (contactUs_sends_once delivering enquiry_by_object quiet eq_refl eq_refl eq_refl).
    exists (JObj {[ "toString" := JStr "x" ]}), {[ "toString" := JStr "x" ]}.
    split_and!; [by left|done|by eexists].
Defined.

End MiscWitnesses.
